(** * ecommerce.py: the filter / KPI / chart pipeline of the dashboard

    A shallow embedding of [src/ecommerce.py].  The pandas DataFrame is a
    list of rows under a list of column labels; a row holds its text cells
    and its numeric cells in two finite maps keyed by the column label, and
    a label without an entry is a missing value (pandas' NaN).  Numbers are
    exact rationals standing for float64.  Every [df['c']] of the source is
    a lookup that raises [KeyError] when [c] is not a column label. *)

From Stdlib Require Import QArith Qround.
From stdpp Require Import gmap strings list fin_maps sorting.

Local Open Scope string_scope.
Local Open Scope Z_scope.

(** ** Errors *)

Inductive error :=
  | KeyError (c : string)
  | ValueError
  | TypeError
  | StreamlitAPIException.

Inductive result (A : Type) :=
  | Ok (a : A)
  | Err (e : error).
Arguments Ok {A} a.
Arguments Err {A} e.

Definition bind {A B} (m : result A) (k : A → result B) : result B :=
  match m with
  | Ok a => k a
  | Err e => Err e
  end.

Notation "x ←! m ; k" := (bind m (fun x => k))
  (at level 20, m at level 100, k at level 200, right associativity,
   format "x  ←!  m ;  '/' k").

Definition raises {A} (m : result A) : Prop := ∃ e, m = Err e.

(** ** Data model *)

Record row := Row {
  txt : gmap string string;
  num : gmap string Q
}.

Record table := Table {
  columns : list string;
  rows : list row
}.

(** ['c' in df.columns] *)
Definition has_col (c : string) (df : table) : bool :=
  bool_decide (c ∈ columns df).

(** [len(df)] *)
Definition len (df : table) : Z := Z.of_nat (length (rows df)).

(** A Series: the cells of one column, top to bottom; [None] is NaN. *)
Definition series (A : Type) := list (option A).

(** [df['c']] for a text column and for a numeric column, or [KeyError]. *)
Definition getitem_txt (df : table) (c : string) : result (series string) :=
  if has_col c df then Ok ((fun r => txt r !! c) <$> rows df) else Err (KeyError c).

Definition getitem_num (df : table) (c : string) : result (series Q) :=
  if has_col c df then Ok ((fun r => num r !! c) <$> rows df) else Err (KeyError c).

(** [df[mask]]: boolean indexing keeps the rows whose mask entry is true and
    all the column labels; pandas refuses a mask of another length. *)
Fixpoint mask_rows (mask : list bool) (rs : list row) : list row :=
  match mask, rs with
  | b :: mask', r :: rs' => if b then r :: mask_rows mask' rs' else mask_rows mask' rs'
  | _, _ => []
  end.

Definition loc (df : table) (mask : list bool) : result table :=
  if Nat.eqb (length mask) (length (rows df)) then
    Ok {| columns := columns df; rows := mask_rows mask (rows df) |}
  else Err ValueError.

(** [df.copy()] has the same contents. *)
Definition copy (df : table) : table :=
  {| columns := columns df; rows := rows df |}.



(** ** Series operations *)

(** [s.isin(values)] on a text series; a missing cell is in no list of
    labels. *)
Definition isin_cell (values : list string) (v : option string) : bool :=
  match v with
  | Some w => bool_decide (w ∈ values)
  | None => false
  end.

Definition isin (s : series string) (values : list string) : list bool :=
  isin_cell values <$> s.

(** [s >= lo] and [s <= hi]: a comparison with a missing cell is false. *)
Definition ge_cell (lo : Z) (v : option Q) : bool :=
  match v with
  | Some q => Qle_bool (inject_Z lo) q
  | None => false
  end.

Definition le_cell (hi : Z) (v : option Q) : bool :=
  match v with
  | Some q => Qle_bool q (inject_Z hi)
  | None => false
  end.

Definition ge (s : series Q) (lo : Z) : list bool := ge_cell lo <$> s.
Definition le (s : series Q) (hi : Z) : list bool := le_cell hi <$> s.

(** [a & b] *)
Definition mask_and (a b : list bool) : list bool := zip_with andb a b.

(** [s == v] on a text series. *)
Definition eq_cell (v : string) (w : option string) : bool :=
  match w with
  | Some w' => String.eqb w' v
  | None => false
  end.

Definition eq_label (s : series string) (v : string) : list bool := eq_cell v <$> s.

(** ** FilterEngine: [apply_filters], lines 59-76

    The selections are what the sidebar widgets of lines 40-57 returned. *)

Record selections := Selections {
  selected_months : list string;
  selected_category : list string;
  selected_states : list string;
  min_review : Z;
  max_review : Z;
  selected_payment : string
}.

(** ['All' in l] *)
Definition all_in (l : list string) : bool := bool_decide ("All" ∈ l).

(** Lines 61-68, one multi-select: [c] is the column, [sel] the selection. *)
Definition filter_isin (df filtered_df : table) (c : string) (sel : list string)
  : result table :=
  if has_col c df && negb (all_in sel) then
    s ←! getitem_txt filtered_df c;
    loc filtered_df (isin s sel)
  else Ok filtered_df.

(** Lines 70-71. *)
Definition filter_review (df filtered_df : table) (lo hi : Z) : result table :=
  if has_col "review_score" df then
    s1 ←! getitem_num filtered_df "review_score";
    s2 ←! getitem_num filtered_df "review_score";
    loc filtered_df (mask_and (ge s1 lo) (le s2 hi))
  else Ok filtered_df.

(** Lines 73-74. *)
Definition filter_payment (df filtered_df : table) (p : string) : result table :=
  if has_col "payment_type" df && negb (String.eqb p "All") then
    s ←! getitem_txt filtered_df "payment_type";
    loc filtered_df (eq_label s p)
  else Ok filtered_df.

Definition apply_filters (df : table) (sel : selections) : result table :=
  let filtered_df := copy df in
  filtered_df ←! filter_isin df filtered_df "order_month" (selected_months sel);
  filtered_df ←! filter_isin df filtered_df "product_category_name_english"
                   (selected_category sel);
  filtered_df ←! filter_isin df filtered_df "customer_state" (selected_states sel);
  filtered_df ←! filter_review df filtered_df (min_review sel) (max_review sel);
  filtered_df ←! filter_payment df filtered_df (selected_payment sel);
  Ok filtered_df.

(** ** KpiCalculator: [calculate_kpis], lines 78-89 *)

(** A Python number: an [int], or a [float] that may be NaN. *)
Inductive number :=
  | Int (z : Z)
  | Float (q : Q)
  | NaN.

(** The cells that are present, in order ([dropna]). *)
Definition present {A} (s : series A) : list A := omap id s.

Definition Qsum (l : list Q) : Q := foldr Qplus 0%Q l.

(** [s.sum()] skips missing cells; the sum of none is 0.0.  The column is
    taken as a float64 column and the sum as the exact sum of its cells:
    float64 rounding is not modelled. *)
Definition sum (s : series Q) : number := Float (Qsum (present s)).

(** [s.mean()] skips missing cells; the mean of none is NaN. *)
Definition mean_cells (l : list Q) : option Q :=
  match l with
  | [] => None
  | _ => Some (Qsum l / inject_Z (Z.of_nat (length l)))%Q
  end.

Definition float_of (o : option Q) : number :=
  match o with
  | Some q => Float q
  | None => NaN
  end.

Definition mean (s : series Q) : number := float_of (mean_cells (present s)).

(** The distinct elements of a list, each at its first appearance. *)
Definition distinct {A} `{EqDecision A} (l : list A) : list A :=
  reverse (remove_dups (reverse l)).

(** [s.nunique()] counts the distinct cells that are present. *)
Definition nunique (s : series string) : number :=
  Int (Z.of_nat (length (distinct (present s)))).

Record kpis := Kpis {
  total_orders : number;
  total_revenue : number;
  avg_rating : number;
  avg_freight_cost : number;
  total_customers : number;
  avg_price : number
}.

(** [agg(df['c']) if 'c' in df.columns else 0] *)
Definition num_or_zero (df : table) (c : string) (agg : series Q → number)
  : result number :=
  if has_col c df then s ←! getitem_num df c; Ok (agg s) else Ok (Int 0).

Definition txt_or_zero (df : table) (c : string) (agg : series string → number)
  : result number :=
  if has_col c df then s ←! getitem_txt df c; Ok (agg s) else Ok (Int 0).

Definition calculate_kpis (df : table) : result kpis :=
  if len df =? 0 then
    Ok (Kpis (Int 0) (Int 0) (Int 0) (Int 0) (Int 0) (Int 0))
  else
    revenue ←! num_or_zero df "total_order_value" sum;
    rating ←! num_or_zero df "review_score" mean;
    freight ←! num_or_zero df "freight_value" mean;
    customers ←! txt_or_zero df "customer_unique_id" nunique;
    price ←! num_or_zero df "price" mean;
    Ok {| total_orders := Int (len df);
          total_revenue := revenue;
          avg_rating := rating;
          avg_freight_cost := freight;
          total_customers := customers;
          avg_price := price |}.

(** ** ChartBuilder: [create_visualizations], lines 109-180 *)

(** A Series indexed by labels, as [groupby] and [value_counts] return it. *)
Definition labelled := list (string * number).

(** The order [sort_values] uses on numbers: by value, and NaN last in
    either direction ([na_position='last']). *)
Definition Q_of (n : number) : option Q :=
  match n with
  | Int z => Some (inject_Z z)
  | Float q => Some q
  | NaN => None
  end.

Definition number_leb (a b : number) : bool :=
  match Q_of a, Q_of b with
  | Some x, Some y => Qle_bool x y
  | _, None => true
  | None, Some _ => false
  end.

Definition number_geb (a b : number) : bool :=
  match Q_of a, Q_of b with
  | Some x, Some y => Qle_bool y x
  | _, None => true
  | None, Some _ => false
  end.

(** Sorting by insertion: of two elements that compare equal, the one that
    was first stays first. *)
Fixpoint insert_sorted {A} (leb : A → A → bool) (x : A) (l : list A) : list A :=
  match l with
  | [] => [x]
  | y :: l' => if leb x y then x :: l else y :: insert_sorted leb x l'
  end.

Definition stable_sort {A} (leb : A → A → bool) (l : list A) : list A :=
  foldr (insert_sorted leb) [] l.

(** [s.sort_values(ascending=...)].  Equal values keep their index order, as
    numpy's default sort does on short arrays; on long arrays pandas leaves
    the order of equal values open, and nothing below depends on it. *)
Definition sort_values (ascending : bool) (s : labelled) : labelled :=
  stable_sort
    (fun a b => if ascending then number_leb a.2 b.2 else number_geb a.2 b.2) s.

(** [s.head(n)] *)
Definition head (n : nat) (s : labelled) : labelled := take n s.

(** The group labels of [groupby]: the distinct present keys, sorted. *)
Definition group_keys (k : series string) : list string :=
  merge_sort (fun a b => Is_true (String.leb a b)) (distinct (present k)).

(** The cells of [v] in the rows whose key is [g]. *)
Fixpoint group_cells {A} (g : string) (k : series string) (v : series A) : series A :=
  match k, v with
  | kc :: k', vc :: v' =>
      if bool_decide (kc = Some g) then vc :: group_cells g k' v'
      else group_cells g k' v'
  | _, _ => []
  end.

(** [df.groupby(key)[val].agg()] *)
Definition groupby_agg (df : table) (key val : string) (agg : series Q → number)
  : result labelled :=
  k ←! getitem_txt df key;
  v ←! getitem_num df val;
  Ok ((fun g => (g, agg (group_cells g k v))) <$> group_keys k).

(** [s.value_counts()]: the count of each distinct present label, largest
    count first. *)
Definition count_label (g : string) (k : series string) : number :=
  Int (Z.of_nat (length (List.filter (fun c => bool_decide (c = Some g)) k))).

Definition value_counts (k : series string) : labelled :=
  sort_values false ((fun g => (g, count_label g k)) <$> distinct (present k)).

Inductive chart_kind := Line | BarH | Bar | Histogram | Scatter | Box | Pie.

Inductive chart_data :=
  | Labelled (s : labelled)
  | Column (x : series Q)
  | Columns (x y : series Q).

Record chart := Chart {
  kind : chart_kind;
  title : string;
  data : chart_data;
  trendline : bool
}.

(** What the script shows, in order (labels without their pictographs). *)
Inductive event :=
  | Markdown (text : string)
  | ErrorMsg (text : string)
  | Success (shown total : Z)
  | Warning (text : string)
  | Info (text : string)
  | Metric (label : string) (value : number)
  | SidebarHeader (text : string)
  | MultiSelect (label : string) (options : list (option string))
  | Slider (label : string) (lo hi : Z)
  | SelectBox (label : string) (options : list (option string))
  | CheckBox (label : string)
  | DownloadButton (label : string) (payload : table) (file_name : string)
  | DataFrame (df : table)
  | DatasetInfo (records : Z) (ncolumns : Z)
  | PlotlyChart (c : chart).

(** [if guard: ...] around one chart. *)
Definition when (guard : bool) (body : result (list event)) : result (list event) :=
  if guard then body else Ok [].

Definition plot (k : chart_kind) (t : string) (d : chart_data) (trend : bool)
  : list event :=
  [PlotlyChart {| kind := k; title := t; data := d; trendline := trend |}].

(** [px.bar(x=..., y=...)] on the values and the index of a labelled series:
    plotly raises [ValueError] when the series has no point. *)
Definition px_bar (k : chart_kind) (t : string) (s : labelled) : result (list event) :=
  match s with
  | [] => Err ValueError
  | _ => Ok (plot k t (Labelled s) false)
  end.

Definition monthly_sales (df : table) : result (list event) :=
  when (has_col "order_month" df && has_col "total_order_value" df)
    (sales ←! groupby_agg df "order_month" "total_order_value" sum;
     Ok (plot Line "Total Monthly Sales Over Time" (Labelled sales) false)).

Definition top_states_by_sales (df : table) : result (list event) :=
  when (has_col "customer_state" df && has_col "total_order_value" df)
    (s ←! groupby_agg df "customer_state" "total_order_value" sum;
     let state_sales := head 10 (sort_values true s) in
     px_bar BarH "Top 10 States by Sales" state_sales).

Definition top_categories (df : table) : result (list event) :=
  when (has_col "product_category_name_english" df)
    (s ←! getitem_txt df "product_category_name_english";
     let top := sort_values true (head 10 (value_counts s)) in
     px_bar BarH "Top 10 Product Categories by Count" top).

Definition price_histogram (df : table) : result (list event) :=
  when (has_col "price" df)
    (x ←! getitem_num df "price";
     Ok (plot Histogram "Distribution of Product Prices" (Column x) false)).

Definition scatter (df : table) (xc yc t : string) (trend : bool)
  : result (list event) :=
  when (has_col xc df && has_col yc df)
    (x ←! getitem_num df xc;
     y ←! getitem_num df yc;
     Ok (plot Scatter t (Columns x y) trend)).

Definition delivery_box (df : table) : result (list event) :=
  when (has_col "review_score" df && has_col "delivery_days" df)
    (x ←! getitem_num df "review_score";
     y ←! getitem_num df "delivery_days";
     Ok (plot Box "Delivery Time by Review Score" (Columns x y) false)).

Definition delivery_by_state (df : table) : result (list event) :=
  when (has_col "customer_state" df && has_col "delivery_days" df)
    (s ←! groupby_agg df "customer_state" "delivery_days" mean;
     let avg := sort_values true (head 10 (sort_values true s)) in
     px_bar Bar "Top 10 States by Avg Delivery Time" avg).

Definition payment_pie (df : table) : result (list event) :=
  when (has_col "payment_type" df)
    (s ←! getitem_txt df "payment_type";
     let counts := value_counts s in
     Ok (plot Pie "Payment Method Distribution" (Labelled counts) false)).

Definition rating_by_payment (df : table) : result (list event) :=
  when (has_col "payment_type" df && has_col "review_score" df)
    (s ←! groupby_agg df "payment_type" "review_score" mean;
     let avg := sort_values true s in
     px_bar Bar "Avg Review Score by Payment Type" avg).

(** Running the parts of a page one after the other. *)
Fixpoint sequence (parts : list (result (list event))) : result (list event) :=
  match parts with
  | [] => Ok []
  | p :: parts' => es ←! p; es' ←! sequence parts'; Ok (es ++ es')%list
  end.

Definition create_visualizations (df : table) : result (list event) :=
  sequence [
    Ok [Markdown "---"; Markdown "### Data Visualizations";
        Markdown "#### Sales Analytics"];
    monthly_sales df;
    top_states_by_sales df;
    Ok [Markdown "#### Product Analytics"];
    top_categories df;
    price_histogram df;
    scatter df "price" "freight_value" "Freight Cost vs Product Price" false;
    Ok [Markdown "#### Delivery Analytics"];
    delivery_box df;
    delivery_by_state df;
    scatter df "estimated_days" "delivery_delay"
      "Delivery Delay vs. Estimated Delivery Time" true;
    Ok [Markdown "#### Payment Analytics"];
    payment_pie df;
    rating_by_payment df
  ].

(** ** The sidebar widgets of [apply_filters], lines 40-57 *)

(** [s.unique().tolist()]: the distinct cells in order of appearance, a
    missing cell among them. *)
Definition unique (s : series string) : list (option string) := distinct s.

(** [sorted(l, reverse=...)]: Python cannot order a missing cell (a float
    NaN) against a label. *)
Definition py_sorted (reverse : bool) (l : list (option string))
  : result (list (option string)) :=
  if bool_decide (None ∈ l) && negb (bool_decide (present l = [])) then Err TypeError
  else if bool_decide (None ∈ l) then Ok l
  else if reverse then
    Ok (Some <$> merge_sort (fun a b => Is_true (String.leb b a)) (present l))
  else
    Ok (Some <$> merge_sort (fun a b => Is_true (String.leb a b)) (present l)).

(** [['All'] + sorted(df[c].unique().tolist(), reverse=...) if c in
    df.columns else ['All']] *)
Definition options (df : table) (c : string) (reverse : bool)
  : result (list (option string)) :=
  if has_col c df then
    s ←! getitem_txt df c;
    l ←! py_sorted reverse (unique s);
    Ok (Some "All" :: l)
  else Ok [Some "All"].

(** [int(x)] truncates towards zero and refuses NaN. *)
Definition py_int (x : option Q) : result Z :=
  match x with
  | Some q => Ok (Z.quot (Qnum q) (Z.pos (Qden q)))
  | None => Err ValueError
  end.

Definition Qmin (a b : Q) : Q := if Qle_bool a b then a else b.
Definition Qmax (a b : Q) : Q := if Qle_bool a b then b else a.

(** [s.min()] and [s.max()] skip missing cells; NaN when none is present. *)
Definition fold1 (f : Q → Q → Q) (l : list Q) : option Q :=
  match l with
  | [] => None
  | x :: l' => Some (foldl f x l')
  end.

Definition series_min (s : series Q) : option Q := fold1 Qmin (present s).
Definition series_max (s : series Q) : option Q := fold1 Qmax (present s).

(** The bounds of the review slider, which are also its default value
    (lines 51-54). *)
Definition review_bounds (df : table) : result (Z * Z) :=
  if has_col "review_score" df then
    s ←! getitem_num df "review_score";
    lo ←! py_int (series_min s);
    hi ←! py_int (series_max s);
    Ok (lo, hi)
  else Ok (1, 5).

(** [st.sidebar.slider(label, lo, hi, (lo, hi))]: Streamlit raises when the
    lower bound is not below the upper bound. *)
Definition slider (label : string) (lo hi : Z) : result (list event) :=
  if lo <? hi then Ok [Slider label lo hi] else Err StreamlitAPIException.

(** Lines 51-54: the slider is built only for a table with a review_score
    column. *)
Definition review_slider (df : table) : result (list event) :=
  if has_col "review_score" df then
    bounds ←! review_bounds df;
    slider "Review Score Range:" bounds.1 bounds.2
  else Ok [].

Definition sidebar (df : table) : result (list event) :=
  months ←! options df "order_month" false;
  categories ←! options df "product_category_name_english" true;
  states ←! options df "customer_state" true;
  review ←! review_slider df;
  payments ←! options df "payment_type" false;
  Ok ([SidebarHeader "Filter Options";
       MultiSelect "Select Months:" months;
       MultiSelect "Select Product Category:" categories;
       MultiSelect "Select States:" states]
      ++ review
      ++ [SelectBox "Payment Type:" payments])%list.

(** ** DataLoader: [load_ecommerce_data], lines 30-37 *)

(** The files on disk, by path, each with its parsed contents. *)
Definition load_ecommerce_data (fs : gmap string table) : option table * list event :=
  match fs !! "ecommerce.csv" with
  | Some df => (Some df, [])
  | None =>
      (None,
       [ErrorMsg "Please make sure 'ecommerce.csv' file is in the same directory as this script."])
  end.

(** ** [display_kpis], lines 91-107 *)

Definition display_kpis (k : kpis) : list event :=
  [Markdown "### Key Performance Indicators";
   Metric "Total Orders" (total_orders k);
   Metric "Total Revenue" (total_revenue k);
   Metric "Avg Price" (avg_price k);
   Metric "Avg Rating" (avg_rating k);
   Metric "Total Customers" (total_customers k);
   Metric "Avg Freight Cost" (avg_freight_cost k)].

(** ** [main], lines 182-234 *)

(** What the user and the clock supply to one run of the script: [now n] is
    what the [n]-th call of [datetime.now().strftime(...)] returns. *)
Record session := Session {
  pick : selections;
  show_raw : bool;
  now : nat → string
}.

Definition main (fs : gmap string table) (u : session) : result (list event) :=
  let header := [Markdown "main-header"] in
  let '(loaded, shown) := load_ecommerce_data fs in
  match loaded with
  | Some df =>
      side ←! sidebar df;
      filtered_df ←! apply_filters df (pick u);
      k ←! calculate_kpis filtered_df;
      charts ←! (if 0 <? len filtered_df then create_visualizations filtered_df
                 else Ok [Warning "No data available with current filters."]);
      Ok (header ++ shown ++ side
          ++ [Success (len filtered_df) (len df)]
          ++ display_kpis k
          ++ [Markdown "---"]
          ++ (if 0 <? len filtered_df
              then [DownloadButton "Download Filtered Data" filtered_df
                      ("ecommerce_data_filtered_" ++ now u 0%nat ++ ".csv")]
              else [])
          ++ [DownloadButton "Download Full Dataset" df
                ("ecommerce_data_full_"
                 ++ now u (if 0 <? len filtered_df then 1%nat else 0%nat) ++ ".csv")]
          ++ [CheckBox "Show Raw Data"]
          ++ (if show_raw u
              then Markdown "### Raw Data Preview"
                   :: (if 0 <? len filtered_df then [DataFrame filtered_df]
                       else [Info "No data to display with current filters"])
              else [])
          ++ charts
          ++ [Markdown "---"; Markdown "### Dataset Information";
              DatasetInfo (len filtered_df) (Z.of_nat (length (columns filtered_df)));
              Markdown "---"; Markdown "footer"])%list
  | None =>
      Ok (header ++ shown
          ++ [ErrorMsg "Unable to load the dataset. Please check if 'ecommerce.csv' exists in the current directory."])%list
  end.

(** ** [apply_filters] on the object store

    The same lines 59-76 with the DataFrames as objects: a variable holds a
    reference, [df.copy()] and [df[mask]] build a new object, and
    [filtered_df = ...] rebinds the variable.  No statement of the function
    writes to an object. *)

Module Store.

Definition ref := nat.
Definition store := list table.

(** A computation on the store that may raise. *)
Definition st (A : Type) := store → result (A * store).

Definition ret {A} (a : A) : st A := fun h => Ok (a, h).

Definition bind_st {A B} (m : st A) (k : A → st B) : st B :=
  fun h =>
    match m h with
    | Ok (a, h') => k a h'
    | Err e => Err e
    end.

Definition lift {A} (r : result A) : st A :=
  fun h =>
    match r with
    | Ok a => Ok (a, h)
    | Err e => Err e
    end.

(** A new object, after every object there is. *)
Definition new (t : table) : st ref := fun h => Ok (length h, (h ++ [t])%list).

(** The object a reference points to; a variable of the program always
    holds a reference to an object of the store. *)
Definition deref (l : ref) : st table :=
  fun h =>
    match h !! l with
    | Some t => Ok (t, h)
    | None => Err TypeError
    end.

Notation "x ←$ m ; k" := (bind_st m (fun x => k))
  (at level 20, m at level 100, k at level 200, right associativity,
   format "x  ←$  m ;  '/' k").

Definition copy (l : ref) : st ref := t ←$ deref l; new (copy t).

Definition getitem_txt (l : ref) (c : string) : st (series string) :=
  t ←$ deref l; lift (getitem_txt t c).

Definition getitem_num (l : ref) (c : string) : st (series Q) :=
  t ←$ deref l; lift (getitem_num t c).

Definition loc (l : ref) (mask : list bool) : st ref :=
  t ←$ deref l; t' ←$ lift (loc t mask); new t'.

Definition has_col (c : string) (l : ref) : st bool :=
  t ←$ deref l; ret (has_col c t).

Definition filter_isin (df filtered_df : ref) (c : string) (sel : list string)
  : st ref :=
  b ←$ has_col c df;
  if b && negb (all_in sel) then
    s ←$ getitem_txt filtered_df c;
    loc filtered_df (isin s sel)
  else ret filtered_df.

Definition filter_review (df filtered_df : ref) (lo hi : Z) : st ref :=
  b ←$ has_col "review_score" df;
  if b then
    s1 ←$ getitem_num filtered_df "review_score";
    s2 ←$ getitem_num filtered_df "review_score";
    loc filtered_df (mask_and (ge s1 lo) (le s2 hi))
  else ret filtered_df.

Definition filter_payment (df filtered_df : ref) (p : string) : st ref :=
  b ←$ has_col "payment_type" df;
  if b && negb (String.eqb p "All") then
    s ←$ getitem_txt filtered_df "payment_type";
    loc filtered_df (eq_label s p)
  else ret filtered_df.

Definition apply_filters (df : ref) (sel : selections) : st ref :=
  filtered_df ←$ copy df;
  filtered_df ←$ filter_isin df filtered_df "order_month" (selected_months sel);
  filtered_df ←$ filter_isin df filtered_df "product_category_name_english"
                   (selected_category sel);
  filtered_df ←$ filter_isin df filtered_df "customer_state" (selected_states sel);
  filtered_df ←$ filter_review df filtered_df (min_review sel) (max_review sel);
  filtered_df ←$ filter_payment df filtered_df (selected_payment sel);
  ret filtered_df.

(** [m] runs from [h] without raising, only adds objects, and ends in a
    result and a store that satisfy [P]. *)
Definition runs {A} (m : st A) (h : store) (P : A → store → Prop) : Prop :=
  ∃ a h', m h = Ok (a, h') ∧ h `prefix_of` h' ∧ P a h'.

(** What one step of the filter leaves: [res] holds the table [t'], and is
    [cur] or an object that was not in [h]. *)
Definition step_post (h : store) (cur : ref) (t' : table) (res : ref) (h' : store)
  : Prop :=
  h' !! res = Some t' ∧ (res = cur ∨ (length h ≤ res)%nat).

End Store.

(** ** Specification-level vocabulary *)

(** The predicate a row has to pass, by the column labels [cols] of the
    table and the selections: one conjunct per filter of lines 61-74. *)
Definition passes_isin (cols : list string) (c : string) (sel : list string) (r : row)
  : bool :=
  if bool_decide (c ∈ cols) && negb (all_in sel) then isin_cell sel (txt r !! c)
  else true.

Definition passes_review (cols : list string) (lo hi : Z) (r : row) : bool :=
  if bool_decide ("review_score" ∈ cols) then
    ge_cell lo (num r !! "review_score") && le_cell hi (num r !! "review_score")
  else true.

Definition passes_payment (cols : list string) (p : string) (r : row) : bool :=
  if bool_decide ("payment_type" ∈ cols) && negb (String.eqb p "All") then
    eq_cell p (txt r !! "payment_type")
  else true.

Definition keeps (cols : list string) (sel : selections) (r : row) : bool :=
  passes_isin cols "order_month" (selected_months sel) r
  && passes_isin cols "product_category_name_english" (selected_category sel) r
  && passes_isin cols "customer_state" (selected_states sel) r
  && passes_review cols (min_review sel) (max_review sel) r
  && passes_payment cols (selected_payment sel) r.

(** Every selection unrestricted: each multi-select is [['All']], the
    review range is the slider's full range, the payment type is ['All']. *)
Definition unrestricted (df : table) (sel : selections) : Prop :=
  selected_months sel = ["All"]
  ∧ selected_category sel = ["All"]
  ∧ selected_states sel = ["All"]
  ∧ review_bounds df = Ok (min_review sel, max_review sel)
  ∧ selected_payment sel = "All".

(** A row whose review score is present and within the range. *)
Definition in_review_range (lo hi : Z) (r : row) : Prop :=
  ∃ q, num r !! "review_score" = Some q
       ∧ (inject_Z lo <= q)%Q ∧ (q <= inject_Z hi)%Q.

(** A cell that holds an integer. *)
Definition integer_cell (v : option Q) : Prop :=
  ∃ q z, v = Some q ∧ (q == inject_Z z)%Q.

(** Every row has an integer review score. *)
Definition integer_reviews (df : table) : Prop :=
  ∀ r, r ∈ rows df → integer_cell (num r !! "review_score").

(** The three multi-selects, their columns and their selections. *)
Inductive multiselect := Months | Categories | States.


Definition selection_of (m : multiselect) (sel : selections) : list string :=
  match m with
  | Months => selected_months sel
  | Categories => selected_category sel
  | States => selected_states sel
  end.

Definition with_selection (m : multiselect) (l : list string) (sel : selections)
  : selections :=
  match m with
  | Months =>
      Selections l (selected_category sel) (selected_states sel)
        (min_review sel) (max_review sel) (selected_payment sel)
  | Categories =>
      Selections (selected_months sel) l (selected_states sel)
        (min_review sel) (max_review sel) (selected_payment sel)
  | States =>
      Selections (selected_months sel) (selected_category sel) l
        (min_review sel) (max_review sel) (selected_payment sel)
  end.




(** The columns each chart of the catalog is guarded by, by its title. *)
Definition chart_columns (t : string) : list string :=
  if String.eqb t "Total Monthly Sales Over Time" then
    ["order_month"; "total_order_value"]
  else if String.eqb t "Top 10 States by Sales" then
    ["customer_state"; "total_order_value"]
  else if String.eqb t "Top 10 Product Categories by Count" then
    ["product_category_name_english"]
  else if String.eqb t "Distribution of Product Prices" then ["price"]
  else if String.eqb t "Freight Cost vs Product Price" then ["price"; "freight_value"]
  else if String.eqb t "Delivery Time by Review Score" then
    ["review_score"; "delivery_days"]
  else if String.eqb t "Top 10 States by Avg Delivery Time" then
    ["customer_state"; "delivery_days"]
  else if String.eqb t "Delivery Delay vs. Estimated Delivery Time" then
    ["estimated_days"; "delivery_delay"]
  else if String.eqb t "Payment Method Distribution" then ["payment_type"]
  else if String.eqb t "Avg Review Score by Payment Type" then
    ["payment_type"; "review_score"]
  else [].



(** The events that are plain text: headings and error messages. *)
Definition is_message (e : event) : bool :=
  match e with
  | Markdown _ | ErrorMsg _ => true
  | _ => false
  end.


(** The events the sidebar shows. *)
Definition is_widget (e : event) : bool :=
  match e with
  | SidebarHeader _ | MultiSelect _ _ | Slider _ _ _ | SelectBox _ _ => true
  | _ => false
  end.

(** The events the chart section shows: headings and charts. *)
Definition is_heading_or_chart (e : event) : bool :=
  match e with
  | Markdown _ | PlotlyChart _ => true
  | _ => false
  end.

(** The titles of the charts among some events, in order. *)
Definition chart_titles (es : list event) : list string :=
  omap (fun e => match e with PlotlyChart ch => Some (title ch) | _ => None end) es.

(** The titles of the chart catalog, in the order of the page. *)
Definition catalog : list string :=
  ["Total Monthly Sales Over Time";
   "Top 10 States by Sales";
   "Top 10 Product Categories by Count";
   "Distribution of Product Prices";
   "Freight Cost vs Product Price";
   "Delivery Time by Review Score";
   "Top 10 States by Avg Delivery Time";
   "Delivery Delay vs. Estimated Delivery Time";
   "Payment Method Distribution";
   "Avg Review Score by Payment Type"].

(** The columns the sidebar lists the labels of. *)
Definition label_columns : list string :=
  ["order_month"; "product_category_name_english"; "customer_state"; "payment_type"].

(** A part of the page that, when it returns, returns headings and charts,
    the charts being those of the titles [ts] whose columns the table has. *)
Definition lists (part : table → result (list event)) (ts : list string) : Prop :=
  ∀ df es,
    part df = Ok es →
    Forall (fun e => is_heading_or_chart e = true) es
    ∧ chart_titles es =
      List.filter (fun t => forallb (fun c => has_col c df) (chart_columns t)) ts.

(** The titles of the charts that are cut to ten bars. *)
Definition top_ten_titles : list string :=
  ["Top 10 States by Sales";
   "Top 10 Product Categories by Count";
   "Top 10 States by Avg Delivery Time"].

(** A chart of one of these titles has between one and ten bars. *)
Definition at_most_ten_bars (e : event) : Prop :=
  match e with
  | PlotlyChart ch =>
      title ch ∈ top_ten_titles →
      ∃ s, data ch = Labelled s ∧ (0 < length s ≤ 10)%nat
  | _ => True
  end.

(** The ascending and the descending order of [sort_values] on the points
    of a labelled series. *)
Definition by_value (a b : string * number) : Prop := Is_true (number_leb a.2 b.2).
Definition by_value_desc (a b : string * number) : Prop :=
  Is_true (number_geb a.2 b.2).

(** The sum of the numbers of a labelled series, NaN left out. *)
Definition labelled_total (s : labelled) : Q := Qsum (omap (fun p => Q_of p.2) s).

(** The number of cells of a series that hold the label [g]. *)
Definition count_cells (g : string) (s : series string) : nat :=
  length (List.filter (fun c => bool_decide (c = Some g)) s).

(** ** Sample tables *)

Definition order (state payment : string) (score : Z) (value : Q) : row :=
  {| txt := {[ "customer_state" := state; "payment_type" := payment ]};
     num := {[ "review_score" := inject_Z score; "total_order_value" := value ]} |}.

(** Three orders with review scores 5, 3, 4. *)
Definition three_orders : table :=
  {| columns := ["customer_state"; "payment_type"; "review_score"; "total_order_value"];
     rows := [order "SP" "credit_card" 5 (10#1);
              order "RJ" "voucher" 3 (25#2);
              order "SP" "credit_card" 4 (7#1)] |}.

(** An order without a review score. *)
Definition unreviewed_order : row :=
  {| txt := {[ "customer_state" := "RJ" ]}; num := ∅ |}.

(** Three orders with review scores 5, 3 and none. *)
Definition partly_reviewed : table :=
  {| columns := ["customer_state"; "review_score"];
     rows := [order "SP" "credit_card" 5 (10#1);
              order "RJ" "voucher" 3 (25#2);
              unreviewed_order] |}.

Definition everything : selections := Selections ["All"] ["All"] ["All"] 3 5 "All".
Definition only_fives : selections := Selections ["All"] ["All"] ["All"] 5 5 "All".

(** One order in each of eleven states, delivered in 11 days down to 1. *)
Definition state_delivery (state : string) (days : Z) : row :=
  {| txt := {[ "customer_state" := state ]};
     num := {[ "delivery_days" := inject_Z days ]} |}.

Definition eleven_deliveries : table :=
  {| columns := ["customer_state"; "delivery_days"];
     rows := [state_delivery "AC" 11; state_delivery "AL" 10; state_delivery "AM" 9;
              state_delivery "AP" 8; state_delivery "BA" 7; state_delivery "CE" 6;
              state_delivery "DF" 5; state_delivery "ES" 4; state_delivery "GO" 3;
              state_delivery "MA" 2; state_delivery "SP" 1] |}.

(** Eleven product categories, the first ordered once, the second twice, and
    so on to the eleventh. *)
Definition category_orders (category : string) (n : nat) : list row :=
  replicate n {| txt := {[ "product_category_name_english" := category ]}; num := ∅ |}.

Definition eleven_categories : table :=
  {| columns := ["product_category_name_english"];
     rows := concat
       [category_orders "c01" 1; category_orders "c02" 2; category_orders "c03" 3;
        category_orders "c04" 4; category_orders "c05" 5; category_orders "c06" 6;
        category_orders "c07" 7; category_orders "c08" 8; category_orders "c09" 9;
        category_orders "c10" 10; category_orders "c11" 11] |}.


(** One order in each of eleven states, worth 1 to 11. *)
Definition state_order (state : string) (value : Z) : row :=
  {| txt := {[ "customer_state" := state ]};
     num := {[ "total_order_value" := inject_Z value ]} |}.

Definition eleven_states : table :=
  {| columns := ["customer_state"; "total_order_value"];
     rows := [state_order "AC" 1; state_order "AL" 2; state_order "AM" 3;
              state_order "AP" 4; state_order "BA" 5; state_order "CE" 6;
              state_order "DF" 7; state_order "ES" 8; state_order "GO" 9;
              state_order "MA" 10; state_order "SP" 11] |}.

(** * Properties *)

(** ** Boolean indexing *)

Lemma mask_rows_fmap (p : row → bool) (rs : list row) :
  mask_rows (p <$> rs) rs = List.filter p rs.
Proof.
  induction rs as [|r rs IH]; csimpl; [done|].
  rewrite IH. done.
Qed.

Lemma mask_and_fmap {A} (f g : A → bool) (l : list A) :
  mask_and (f <$> l) (g <$> l) = (fun x => f x && g x) <$> l.
Proof.
  unfold mask_and. induction l as [|x l IH]; csimpl; [done|].
  by rewrite IH.
Qed.

Lemma loc_fmap (df : table) (p : row → bool) :
  loc df (p <$> rows df) =
  Ok {| columns := columns df; rows := List.filter p (rows df) |}.
Proof.
  unfold loc. rewrite length_fmap, Nat.eqb_refl, mask_rows_fmap. done.
Qed.

Lemma copy_id (df : table) : copy df = df.
Proof. by destruct df. Qed.

Lemma filter_filter {A} (p q : A → bool) (l : list A) :
  List.filter q (List.filter p l) = List.filter (fun x => p x && q x) l.
Proof.
  induction l as [|x l IH]; simpl; [done|].
  destruct (p x); simpl; [|done].
  destruct (q x); simpl; by rewrite IH.
Qed.

Lemma filter_true {A} (p : A → bool) (l : list A) :
  (∀ x, x ∈ l → p x = true) → List.filter p l = l.
Proof.
  induction l as [|x l IH]; intros H; simpl; [done|].
  rewrite (H x) by constructor.
  f_equal. apply IH. intros y Hy. apply H. by constructor.
Qed.

Lemma filter_ext_in {A} (p q : A → bool) (l : list A) :
  (∀ x, x ∈ l → p x = q x) → List.filter p l = List.filter q l.
Proof.
  induction l as [|x l IH]; intros H; simpl; [done|].
  rewrite (H x) by constructor.
  rewrite IH; [done|]. intros y Hy. apply H. by constructor.
Qed.

Lemma elem_of_filter {A} (p : A → bool) (l : list A) (x : A) :
  x ∈ List.filter p l ↔ x ∈ l ∧ p x = true.
Proof.
  rewrite !list_elem_of_In. apply filter_In.
Qed.

(** ** The filter as a row predicate *)

Section filter_steps.
Variable df : table.
Variable rs : list row.

Let cur := {| columns := columns df; rows := rs |}.

Lemma filter_isin_rows (c : string) (sel : list string) :
  filter_isin df cur c sel =
  Ok {| columns := columns df;
        rows := List.filter (passes_isin (columns df) c sel) rs |}.
Proof.
  unfold filter_isin, passes_isin, has_col.
  destruct (bool_decide (c ∈ columns df)) eqn:Hc; simpl.
  - destruct (all_in sel); simpl.
    + f_equal. subst cur. f_equal. symmetry. by apply filter_true.
    + unfold getitem_txt, has_col. subst cur. simpl. rewrite Hc. simpl.
      unfold isin. rewrite <- list_fmap_compose.
      apply (loc_fmap {| columns := columns df; rows := rs |}).
  - f_equal. subst cur. f_equal. symmetry. by apply filter_true.
Qed.

Lemma filter_review_rows (lo hi : Z) :
  filter_review df cur lo hi =
  Ok {| columns := columns df;
        rows := List.filter (passes_review (columns df) lo hi) rs |}.
Proof.
  unfold filter_review, passes_review, has_col.
  destruct (bool_decide ("review_score" ∈ columns df)) eqn:Hc; simpl.
  - unfold getitem_num, has_col. subst cur. simpl. rewrite Hc. simpl.
    unfold ge, le. rewrite <- !list_fmap_compose, mask_and_fmap.
    apply (loc_fmap {| columns := columns df; rows := rs |}).
  - f_equal. subst cur. f_equal. symmetry. by apply filter_true.
Qed.

Lemma filter_payment_rows (p : string) :
  filter_payment df cur p =
  Ok {| columns := columns df;
        rows := List.filter (passes_payment (columns df) p) rs |}.
Proof.
  unfold filter_payment, passes_payment, has_col.
  destruct (bool_decide ("payment_type" ∈ columns df) && negb (p =? "All")%string)
    eqn:Hc; simpl.
  - apply andb_prop in Hc as [Hc _].
    unfold getitem_txt, has_col. subst cur. simpl. rewrite Hc. simpl.
    unfold eq_label. rewrite <- list_fmap_compose.
    apply (loc_fmap {| columns := columns df; rows := rs |}).
  - f_equal. subst cur. f_equal. symmetry. by apply filter_true.
Qed.
End filter_steps.

(** [apply_filters] never raises: it keeps the rows that pass [keeps]. *)
Lemma apply_filters_keeps (df : table) (sel : selections) :
  apply_filters df sel =
  Ok {| columns := columns df;
        rows := List.filter (keeps (columns df) sel) (rows df) |}.
Proof.
  unfold apply_filters, copy.
  rewrite filter_isin_rows. simpl.
  rewrite filter_isin_rows. simpl.
  rewrite filter_isin_rows. simpl.
  rewrite filter_review_rows. simpl.
  rewrite filter_payment_rows. simpl.
  rewrite !filter_filter. do 2 f_equal.
  apply filter_ext_in. intros r _. unfold keeps.
  by rewrite !andb_assoc.
Qed.

(** ** The observed range of a numeric column *)

Lemma Qmin_cases (a b : Q) :
  (Qmin a b = a ∧ (a <= b)%Q) ∨ (Qmin a b = b ∧ (b <= a)%Q).
Proof.
  unfold Qmin. destruct (Qle_bool a b) eqn:E.
  - left. split; [done|]. by apply Qle_bool_iff.
  - right. split; [done|]. apply Qlt_le_weak, Qnot_le_lt.
    intros H. apply Qle_bool_iff in H. congruence.
Qed.

Lemma Qmax_cases (a b : Q) :
  (Qmax a b = b ∧ (a <= b)%Q) ∨ (Qmax a b = a ∧ (b <= a)%Q).
Proof.
  unfold Qmax. destruct (Qle_bool a b) eqn:E.
  - left. split; [done|]. by apply Qle_bool_iff.
  - right. split; [done|]. apply Qlt_le_weak, Qnot_le_lt.
    intros H. apply Qle_bool_iff in H. congruence.
Qed.

Lemma foldl_Qmin (l : list Q) (a : Q) :
  foldl Qmin a l ∈ a :: l ∧ ∀ x, x ∈ a :: l → (foldl Qmin a l <= x)%Q.
Proof.
  revert a. induction l as [|b l IH]; intros a; simpl.
  - split; [by constructor|]. intros x Hx.
    apply list_elem_of_singleton in Hx as ->. apply Qle_refl.
  - destruct (IH (Qmin a b)) as [Hin Hle]. split.
    + apply elem_of_cons in Hin as [->|Hin].
      * destruct (Qmin_cases a b) as [[-> _]|[-> _]];
          [by constructor | by do 2 constructor].
      * by do 2 constructor.
    + intros x Hx.
      assert (Hm : (foldl Qmin (Qmin a b) l <= Qmin a b)%Q)
        by (apply Hle; constructor).
      apply elem_of_cons in Hx as [->|Hx]; [|apply elem_of_cons in Hx as [->|Hx]].
      * eapply Qle_trans; [exact Hm|].
        destruct (Qmin_cases a b) as [[-> _]|[-> H]]; [apply Qle_refl|done].
      * eapply Qle_trans; [exact Hm|].
        destruct (Qmin_cases a b) as [[-> H]|[-> _]]; [done|apply Qle_refl].
      * apply Hle. by constructor.
Qed.

Lemma foldl_Qmax (l : list Q) (a : Q) :
  foldl Qmax a l ∈ a :: l ∧ ∀ x, x ∈ a :: l → (x <= foldl Qmax a l)%Q.
Proof.
  revert a. induction l as [|b l IH]; intros a; simpl.
  - split; [by constructor|]. intros x Hx.
    apply list_elem_of_singleton in Hx as ->. apply Qle_refl.
  - destruct (IH (Qmax a b)) as [Hin Hle]. split.
    + apply elem_of_cons in Hin as [->|Hin].
      * destruct (Qmax_cases a b) as [[-> _]|[-> _]];
          [by do 2 constructor | by constructor].
      * by do 2 constructor.
    + intros x Hx.
      assert (Hm : (Qmax a b <= foldl Qmax (Qmax a b) l)%Q)
        by (apply Hle; constructor).
      apply elem_of_cons in Hx as [->|Hx]; [|apply elem_of_cons in Hx as [->|Hx]].
      * eapply Qle_trans; [|exact Hm].
        destruct (Qmax_cases a b) as [[-> H]|[-> _]]; [done|apply Qle_refl].
      * eapply Qle_trans; [|exact Hm].
        destruct (Qmax_cases a b) as [[-> _]|[-> H]]; [apply Qle_refl|done].
      * apply Hle. by constructor.
Qed.

Lemma fold1_Qmin (l : list Q) (m : Q) :
  fold1 Qmin l = Some m → m ∈ l ∧ ∀ x, x ∈ l → (m <= x)%Q.
Proof.
  destruct l as [|a l]; simpl; [done|].
  intros [= <-]. apply foldl_Qmin.
Qed.

Lemma fold1_Qmax (l : list Q) (m : Q) :
  fold1 Qmax l = Some m → m ∈ l ∧ ∀ x, x ∈ l → (x <= m)%Q.
Proof.
  destruct l as [|a l]; simpl; [done|].
  intros [= <-]. apply foldl_Qmax.
Qed.

Lemma py_int_integer (q : Q) (z : Z) :
  (q == inject_Z z)%Q → py_int (Some q) = Ok z.
Proof.
  unfold Qeq. simpl. intros H. f_equal.
  rewrite Z.mul_1_r in H. rewrite H.
  apply Z.quot_mul. done.
Qed.

Lemma elem_of_present {A} (s : series A) (x : A) : x ∈ present s ↔ Some x ∈ s.
Proof.
  unfold present. rewrite list_elem_of_omap. split.
  - intros [o [Ho Hx]]. simpl in Hx. by subst.
  - intros H. by exists (Some x).
Qed.


(** ** Identity of the unrestricted filter *)

Lemma passes_isin_all (cols : list string) (c : string) (r : row) :
  passes_isin cols c ["All"] r = true.
Proof.
  unfold passes_isin. replace (all_in ["All"]) with true by done.
  by rewrite andb_false_r.
Qed.

Lemma passes_payment_all (cols : list string) (r : row) :
  passes_payment cols "All" r = true.
Proof. unfold passes_payment. simpl. by rewrite andb_false_r. Qed.

(** The unrestricted filter is the identity exactly when every row passes
    the review range. *)
Lemma unrestricted_keeps (df : table) (sel : selections) (r : row) :
  unrestricted df sel →
  keeps (columns df) sel r =
  passes_review (columns df) (min_review sel) (max_review sel) r.
Proof.
  intros (Hm & Hc & Hs & _ & Hp). unfold keeps.
  rewrite Hm, Hc, Hs, Hp, !passes_isin_all, passes_payment_all.
  simpl. by rewrite andb_true_r.
Qed.

Lemma keeps_in_range (cols : list string) (sel : selections) (r : row) :
  "review_score" ∈ cols →
  keeps cols sel r = true →
  in_review_range (min_review sel) (max_review sel) r.
Proof.
  intros Hc Hk. unfold keeps in Hk.
  apply andb_prop in Hk as [Hk _]. apply andb_prop in Hk as [_ Hk].
  unfold passes_review in Hk. rewrite bool_decide_eq_true_2 in Hk by done.
  destruct (num r !! "review_score") as [q|] eqn:Hq; [|done].
  simpl in Hk. apply andb_prop in Hk as [Hlo Hhi].
  exists q. split; [done|]. split; by apply Qle_bool_iff.
Qed.

Lemma integer_in_bounds (df : table) (lo hi : Z) (r : row) :
  integer_reviews df →
  review_bounds df = Ok (lo, hi) →
  r ∈ rows df →
  passes_review (columns df) lo hi r = true.
Proof.
  intros Hint Hb Hr. unfold passes_review.
  destruct (bool_decide ("review_score" ∈ columns df)) eqn:Hc; [|done].
  unfold review_bounds, getitem_num, has_col in Hb. rewrite Hc in Hb. simpl in Hb.
  set (s := (fun r => num r !! "review_score") <$> rows df) in Hb.
  destruct (Hint r Hr) as (q & z & Hq & Hz).
  assert (Hqs : q ∈ present s).
  { apply elem_of_present. rewrite <- Hq. subst s.
    apply list_elem_of_fmap. by exists r. }
  destruct (series_min s) as [m|] eqn:Hmin; [|done].
  destruct (series_max s) as [M|] eqn:Hmax;
    [|by destruct (py_int (Some m))].
  apply fold1_Qmin in Hmin as [Hmin_in Hmin_le].
  apply fold1_Qmax in Hmax as [Hmax_in Hmax_le].
  assert (Hcell : ∀ x, x ∈ present s → ∃ k, (x == inject_Z k)%Q).
  { intros x Hx. apply elem_of_present in Hx. subst s.
    apply list_elem_of_fmap in Hx as (r' & Hx & Hr').
    destruct (Hint r' Hr') as (q' & k & Hq' & Hk).
    exists k. rewrite <- Hx in Hq'. by injection Hq' as ->. }
  destruct (Hcell m Hmin_in) as [zm Hzm].
  destruct (Hcell M Hmax_in) as [zM HzM].
  rewrite (py_int_integer m zm Hzm), (py_int_integer M zM HzM) in Hb.
  simpl in Hb. injection Hb as <- <-.
  rewrite Hq. simpl. apply andb_true_intro. split; apply Qle_bool_iff.
  - rewrite <- Hzm. by apply Hmin_le.
  - rewrite <- HzM. by apply Hmax_le.
Qed.

(** C2, as the code has it: with every selection unrestricted the filter
    returns the input table exactly when the table has no review_score
    column or every row has a review score within the selected range, the
    slider's full range; so it does when every score is a present integer,
    and a row without a review score is always dropped. *)
Theorem apply_filters_unrestricted (df : table) (sel : selections) :
  unrestricted df sel →
  (apply_filters df sel = Ok df ↔
   (has_col "review_score" df = true →
    ∀ r, r ∈ rows df → in_review_range (min_review sel) (max_review sel) r))
  ∧ ((has_col "review_score" df = true → integer_reviews df) →
     apply_filters df sel = Ok df).
Proof.
  intros Hsel.
  assert (Hiff : apply_filters df sel = Ok df ↔
    (has_col "review_score" df = true →
     ∀ r, r ∈ rows df → in_review_range (min_review sel) (max_review sel) r)).
  { rewrite apply_filters_keeps. split.
    - intros [= Hrows] Hc r Hr. apply bool_decide_eq_true in Hc.
      rewrite <- Hrows in Hr. apply elem_of_filter in Hr as [_ Hk].
      by apply (keeps_in_range (columns df)).
    - intros Hrange.
      rewrite (filter_true (keeps (columns df) sel) (rows df)); [by destruct df|].
      intros r Hr. rewrite (unrestricted_keeps df sel r Hsel).
      unfold passes_review. case_bool_decide as Hc; [|done].
      destruct (Hrange (bool_decide_eq_true_2 _ Hc) r Hr) as (q & -> & Hlo & Hhi).
      simpl. apply andb_true_intro. split; by apply Qle_bool_iff. }
  split; [exact Hiff|].
  intros Hint. apply Hiff. intros Hc r Hr.
  destruct Hsel as (_ & _ & _ & Hb & _).
  pose proof (integer_in_bounds df _ _ r (Hint Hc) Hb Hr) as Hp.
  unfold passes_review, has_col in *. rewrite Hc in Hp.
  destruct (num r !! "review_score") as [q|] eqn:Hq; [|done].
  simpl in Hp. apply andb_prop in Hp as [Hlo Hhi].
  exists q. split; [done|]. split; by apply Qle_bool_iff.
Qed.

Lemma three_orders_integer : integer_reviews three_orders.
Proof.
  intros r Hr. unfold three_orders in Hr. simpl in Hr.
  repeat (apply elem_of_cons in Hr as [->|Hr]);
    [exists (inject_Z 5), 5 | exists (inject_Z 3), 3 | exists (inject_Z 4), 4 |
     by apply elem_of_nil in Hr]; done.
Qed.

Lemma apply_filters_unrestricted_witness :
  unrestricted three_orders everything
  ∧ apply_filters three_orders everything = Ok three_orders.
Proof.
  assert (H : unrestricted three_orders everything)
    by (repeat split; vm_compute; reflexivity).
  split; [exact H|].
  apply (proj2 (apply_filters_unrestricted three_orders everything H)).
  intros _. exact three_orders_integer.
Defined.

(** C2 as stated fails: on three orders with review scores 5, 3 and none,
    for which the sidebar is built with the slider at 3..5, the filter with
    every selection unrestricted drops the order without a score. *)
Lemma unrestricted_drops_unreviewed :
  (∃ side, sidebar partly_reviewed = Ok side)
  ∧ unrestricted partly_reviewed everything
  ∧ apply_filters partly_reviewed everything =
    Ok {| columns := columns partly_reviewed;
          rows := [order "SP" "credit_card" 5 (10#1); order "RJ" "voucher" 3 (25#2)] |}
  ∧ apply_filters partly_reviewed everything ≠ Ok partly_reviewed.
Proof.
  split; [eexists; vm_compute; reflexivity|].
  split; [repeat split; vm_compute; reflexivity|].
  assert (H : apply_filters partly_reviewed everything =
    Ok {| columns := columns partly_reviewed;
          rows := [order "SP" "credit_card" 5 (10#1); order "RJ" "voucher" 3 (25#2)] |})
    by (vm_compute; reflexivity).
  split; [exact H|]. rewrite H. intros [= Hrows].
Qed.

(** The review range 4..5 keeps two of the three orders, and the KPIs of
    the result count two orders. *)
Example review_range_example :
  ∃ filtered k,
    apply_filters three_orders (Selections ["All"] ["All"] ["All"] 4 5 "All")
    = Ok filtered
    ∧ len filtered = 2
    ∧ calculate_kpis filtered = Ok k
    ∧ total_orders k = Int 2.
Proof. do 2 eexists. repeat split; vm_compute; reflexivity. Qed.

(** A state that no order has leaves no row, and the KPIs are all 0. *)
Example absent_state_example :
  ∃ filtered,
    apply_filters three_orders (Selections ["All"] ["All"] ["MG"] 3 5 "All")
    = Ok filtered
    ∧ len filtered = 0
    ∧ calculate_kpis filtered =
      Ok (Kpis (Int 0) (Int 0) (Int 0) (Int 0) (Int 0) (Int 0)).
Proof. eexists. repeat split; vm_compute; reflexivity. Qed.

(** ** Idempotence *)

(** C6: filtering the filtered table again with the same selections gives
    the filtered table. *)
Theorem apply_filters_idempotent (df : table) (sel : selections) :
  ∃ once, apply_filters df sel = Ok once ∧ apply_filters once sel = Ok once.
Proof.
  eexists. split; [apply apply_filters_keeps|].
  rewrite apply_filters_keeps. simpl. do 2 f_equal.
  rewrite filter_filter. apply filter_ext_in.
  intros r _. by destruct (keeps (columns df) sel r).
Qed.

(** ** The multi-selects *)








(** ** The KPIs *)

Lemma length_remove_dups_le {A} `{EqDecision A} (l : list A) :
  (length (remove_dups l) ≤ length l)%nat.
Proof.
  induction l as [|x l IH]; simpl; [done|].
  destruct (decide_rel elem_of x l); simpl; lia.
Qed.

Lemma length_distinct_le {A} `{EqDecision A} (l : list A) :
  (length (distinct l) ≤ length l)%nat.
Proof.
  unfold distinct. rewrite length_reverse.
  etrans; [apply length_remove_dups_le|]. by rewrite length_reverse.
Qed.

Lemma length_present_le {A} (s : series A) : (length (present s) ≤ length s)%nat.
Proof.
  unfold present. induction s as [|[x|] s IH]; csimpl; lia.
Qed.

Lemma num_or_zero_ok (df : table) (c : string) (agg : series Q → number) :
  num_or_zero df c agg =
  Ok (if has_col c df then agg ((fun r => num r !! c) <$> rows df) else Int 0).
Proof.
  unfold num_or_zero, getitem_num. by destruct (has_col c df).
Qed.

Lemma txt_or_zero_ok (df : table) (c : string) (agg : series string → number) :
  txt_or_zero df c agg =
  Ok (if has_col c df then agg ((fun r => txt r !! c) <$> rows df) else Int 0).
Proof.
  unfold txt_or_zero, getitem_txt. by destruct (has_col c df).
Qed.

(** [calculate_kpis] never raises; on a table with rows it returns: *)
Lemma calculate_kpis_rows (df : table) :
  len df ≠ 0 →
  calculate_kpis df =
  Ok {| total_orders := Int (len df);
        total_revenue :=
          if has_col "total_order_value" df
          then sum ((fun r => num r !! "total_order_value") <$> rows df) else Int 0;
        avg_rating :=
          if has_col "review_score" df
          then mean ((fun r => num r !! "review_score") <$> rows df) else Int 0;
        avg_freight_cost :=
          if has_col "freight_value" df
          then mean ((fun r => num r !! "freight_value") <$> rows df) else Int 0;
        total_customers :=
          if has_col "customer_unique_id" df
          then nunique ((fun r => txt r !! "customer_unique_id") <$> rows df)
          else Int 0;
        avg_price :=
          if has_col "price" df
          then mean ((fun r => num r !! "price") <$> rows df) else Int 0 |}.
Proof.
  intros Hlen. unfold calculate_kpis.
  destruct (len df =? 0) eqn:E; [apply Z.eqb_eq in E; done|].
  by rewrite !num_or_zero_ok, txt_or_zero_ok.
Qed.

Lemma calculate_kpis_no_rows (df : table) :
  len df = 0 →
  calculate_kpis df = Ok (Kpis (Int 0) (Int 0) (Int 0) (Int 0) (Int 0) (Int 0)).
Proof.
  intros Hlen. unfold calculate_kpis. by rewrite Hlen.
Qed.

(** C3: on a table with zero rows all six metrics are the integer 0. *)
Theorem calculate_kpis_empty (df : table) :
  len df = 0 →
  calculate_kpis df = Ok (Kpis (Int 0) (Int 0) (Int 0) (Int 0) (Int 0) (Int 0)).
Proof.
  intros Hlen. unfold calculate_kpis. by rewrite Hlen.
Qed.

Lemma calculate_kpis_empty_witness :
  len (Table ["price"; "review_score"] []) = 0
  ∧ calculate_kpis (Table ["price"; "review_score"] []) =
    Ok (Kpis (Int 0) (Int 0) (Int 0) (Int 0) (Int 0) (Int 0)).
Proof.
  split; [reflexivity|].
  apply (calculate_kpis_empty (Table ["price"; "review_score"] [])).
  reflexivity.
Defined.

(** C5: on a table with rows, total_orders is the row count and each other
    metric is the integer 0 when its column is missing. *)
Theorem calculate_kpis_defaults (df : table) :
  len df ≠ 0 →
  ∃ k, calculate_kpis df = Ok k
    ∧ total_orders k = Int (len df)
    ∧ (has_col "total_order_value" df = false → total_revenue k = Int 0)
    ∧ (has_col "review_score" df = false → avg_rating k = Int 0)
    ∧ (has_col "freight_value" df = false → avg_freight_cost k = Int 0)
    ∧ (has_col "customer_unique_id" df = false → total_customers k = Int 0)
    ∧ (has_col "price" df = false → avg_price k = Int 0).
Proof.
  intros Hlen. eexists. split; [by apply calculate_kpis_rows|]. simpl.
  repeat split; by intros ->.
Qed.

Lemma calculate_kpis_defaults_witness :
  len three_orders ≠ 0
  ∧ ∃ k, calculate_kpis three_orders = Ok k
    ∧ total_orders k = Int (len three_orders)
    ∧ (has_col "total_order_value" three_orders = false → total_revenue k = Int 0)
    ∧ (has_col "review_score" three_orders = false → avg_rating k = Int 0)
    ∧ (has_col "freight_value" three_orders = false → avg_freight_cost k = Int 0)
    ∧ (has_col "customer_unique_id" three_orders = false → total_customers k = Int 0)
    ∧ (has_col "price" three_orders = false → avg_price k = Int 0).
Proof.
  assert (H : len three_orders ≠ 0) by (vm_compute; discriminate).
  split; [exact H|]. exact (calculate_kpis_defaults three_orders H).
Defined.

(** C10: the distinct customers never outnumber the orders, and both are 0
    on a table with zero rows. *)
Theorem customers_le_orders (df : table) :
  ∃ k orders customers,
    calculate_kpis df = Ok k
    ∧ total_orders k = Int orders
    ∧ total_customers k = Int customers
    ∧ customers ≤ orders
    ∧ (len df = 0 → orders = 0 ∧ customers = 0).
Proof.
  destruct (decide (len df = 0)) as [Hlen|Hlen].
  - exists (Kpis (Int 0) (Int 0) (Int 0) (Int 0) (Int 0) (Int 0)), 0, 0.
    by rewrite calculate_kpis_no_rows.
  - rewrite calculate_kpis_rows by done.
    destruct (has_col "customer_unique_id" df) eqn:Hc.
    + eexists _, _, _. split; [reflexivity|]. simpl.
      split; [reflexivity|]. split; [reflexivity|]. split; [|done].
      unfold len. apply inj_le.
      etrans; [apply length_distinct_le|].
      etrans; [apply length_present_le|]. by rewrite length_fmap.
    + eexists _, _, _. split; [reflexivity|]. simpl.
      split; [reflexivity|]. split; [reflexivity|]. split; [|done].
      unfold len. lia.
Qed.

(** ** The chart of the states by sales *)

(** C1: on eleven states worth 1 to 11 the chart titled 'Top 10 States by
    Sales' shows the ten states with the smallest sums, AC (1) to MA (10),
    and leaves out SP, the state with the largest sum. *)
Theorem top_states_by_sales_eleven :
  top_states_by_sales eleven_states =
  Ok [PlotlyChart
        {| kind := BarH;
           title := "Top 10 States by Sales";
           data := Labelled [("AC", Float 1); ("AL", Float 2); ("AM", Float 3);
                             ("AP", Float 4); ("BA", Float 5); ("CE", Float 6);
                             ("DF", Float 7); ("ES", Float 8); ("GO", Float 9);
                             ("MA", Float 10)];
           trendline := false |}].
Proof. vm_compute. reflexivity. Qed.

(** ** Loading *)

(** C8: the load fails exactly when the file is absent, and then the page
    is its header and the two error messages, whatever the user chose: no
    widget, metric, chart or download is produced. *)
Theorem load_not_found (fs : gmap string table) :
  ((load_ecommerce_data fs).1 = None ↔ fs !! "ecommerce.csv" = None)
  ∧ (fs !! "ecommerce.csv" = None →
     ∀ u, ∃ es,
       main fs u = Ok es
       ∧ es = [Markdown "main-header";
               ErrorMsg "Please make sure 'ecommerce.csv' file is in the same directory as this script.";
               ErrorMsg "Unable to load the dataset. Please check if 'ecommerce.csv' exists in the current directory."]
       ∧ forallb is_message es = true).
Proof.
  split.
  - unfold load_ecommerce_data. by destruct (fs !! "ecommerce.csv").
  - intros Hfs u. eexists. unfold main, load_ecommerce_data. rewrite Hfs. simpl.
    done.
Qed.

Lemma load_not_found_witness :
  (∅ : gmap string table) !! "ecommerce.csv" = None
  ∧ ∃ es,
      main ∅ (Session everything true (fun _ => "20240101_120000")) = Ok es
      ∧ es = [Markdown "main-header";
              ErrorMsg "Please make sure 'ecommerce.csv' file is in the same directory as this script.";
              ErrorMsg "Unable to load the dataset. Please check if 'ecommerce.csv' exists in the current directory."]
      ∧ forallb is_message es = true.
Proof.
  split; [reflexivity|].
  apply (proj2 (load_not_found ∅)). reflexivity.
Defined.

(** ** The filter on the object store *)

Module StoreFacts.

Lemma runs_ret {A} (a : A) (h : Store.store) (P : A → Store.store → Prop) :
  P a h → Store.runs (Store.ret a) h P.
Proof. intros HP. by exists a, h. Qed.

Lemma runs_bind {A B} (m : Store.st A) (k : A → Store.st B) (h : Store.store)
    (Q : A → Store.store → Prop) (P : B → Store.store → Prop) :
  Store.runs m h Q →
  (∀ a h', h `prefix_of` h' → Q a h' → Store.runs (k a) h' P) →
  Store.runs (Store.bind_st m k) h P.
Proof.
  intros (a & h' & Hm & Hpre & HQ) Hk.
  destruct (Hk a h' Hpre HQ) as (b & h'' & Hka & Hpre' & HP).
  exists b, h''. unfold Store.bind_st. rewrite Hm.
  split; [done|]. split; [by etrans|done].
Qed.

Lemma runs_deref (l : Store.ref) (t : table) (h : Store.store)
    (P : table → Store.store → Prop) :
  h !! l = Some t → P t h → Store.runs (Store.deref l) h P.
Proof. intros Hl HP. exists t, h. unfold Store.deref. by rewrite Hl. Qed.

Lemma runs_new (t : table) (h : Store.store) (P : Store.ref → Store.store → Prop) :
  P (length h) (h ++ [t])%list → Store.runs (Store.new t) h P.
Proof.
  intros HP. exists (length h), (h ++ [t])%list.
  split; [done|]. split; [by apply prefix_app_r|done].
Qed.

Lemma runs_lift {A} (r : result A) (a : A) (h : Store.store)
    (P : A → Store.store → Prop) :
  r = Ok a → P a h → Store.runs (Store.lift r) h P.
Proof. intros -> HP. by exists a, h. Qed.

Lemma lookup_new (h : Store.store) (t : table) :
  (h ++ [t])%list !! length h = Some t.
Proof. by rewrite lookup_app_r, Nat.sub_diag. Qed.

Section steps.
  Variables (h : Store.store) (df cur : Store.ref) (t tc : table).
  Hypothesis Hdf : h !! df = Some t.
  Hypothesis Hcur : h !! cur = Some tc.

Lemma runs_has_col (c : string) (P : bool → Store.store → Prop) :
  P (has_col c t) h → Store.runs (Store.has_col c df) h P.
Proof.
  intros HP. unfold Store.has_col.
  eapply runs_bind; [by apply (runs_deref df t h (fun a h' => a = t ∧ h' = h))|].
  intros a h' _ [-> ->]. by apply runs_ret.
Qed.

Lemma runs_getitem_txt (c : string) (s : series string)
    (P : series string → Store.store → Prop) :
  getitem_txt tc c = Ok s → P s h → Store.runs (Store.getitem_txt cur c) h P.
Proof.
  intros Hs HP. unfold Store.getitem_txt.
  eapply runs_bind; [by apply (runs_deref cur tc h (fun a h' => a = tc ∧ h' = h))|].
  intros a h' _ [-> ->]. by apply runs_lift with s.
Qed.

Lemma runs_getitem_num (c : string) (s : series Q)
    (P : series Q → Store.store → Prop) :
  getitem_num tc c = Ok s → P s h → Store.runs (Store.getitem_num cur c) h P.
Proof.
  intros Hs HP. unfold Store.getitem_num.
  eapply runs_bind; [by apply (runs_deref cur tc h (fun a h' => a = tc ∧ h' = h))|].
  intros a h' _ [-> ->]. by apply runs_lift with s.
Qed.

Lemma runs_loc (mask : list bool) (t' : table) :
  loc tc mask = Ok t' → Store.runs (Store.loc cur mask) h (Store.step_post h cur t').
Proof.
  intros Hloc. unfold Store.loc.
  eapply runs_bind; [by apply (runs_deref cur tc h (fun a h' => a = tc ∧ h' = h))|].
  intros a h' _ [-> ->].
  eapply runs_bind;
    [by apply (runs_lift _ t' h (fun a h' => a = t' ∧ h' = h))|].
  intros a h' _ [-> ->]. apply runs_new.
  split; [apply lookup_new|]. by right.
Qed.

Lemma runs_filter_isin (c : string) (sel : list string) (t' : table) :
  filter_isin t tc c sel = Ok t' →
  Store.runs (Store.filter_isin df cur c sel) h (Store.step_post h cur t').
Proof.
  unfold filter_isin, Store.filter_isin. intros Hpure.
  eapply runs_bind;
    [by apply (runs_has_col c (fun b h' => b = has_col c t ∧ h' = h))|].
  intros b h' _ [-> ->].
  destruct (has_col c t && negb (all_in sel)).
  - destruct (getitem_txt tc c) as [s|e] eqn:Hs; [|done]. simpl in Hpure.
    eapply runs_bind;
      [by apply (runs_getitem_txt c s (fun a h' => a = s ∧ h' = h))|].
    intros a h' _ [-> ->]. by apply runs_loc.
  - injection Hpure as <-. apply runs_ret. split; [done|by left].
Qed.

Lemma runs_filter_review (lo hi : Z) (t' : table) :
  filter_review t tc lo hi = Ok t' →
  Store.runs (Store.filter_review df cur lo hi) h (Store.step_post h cur t').
Proof.
  unfold filter_review, Store.filter_review. intros Hpure.
  eapply runs_bind;
    [by apply (runs_has_col "review_score"
                 (fun b h' => b = has_col "review_score" t ∧ h' = h))|].
  intros b h' _ [-> ->].
  destruct (has_col "review_score" t).
  - destruct (getitem_num tc "review_score") as [s|e] eqn:Hs; [|done].
    simpl in Hpure.
    eapply runs_bind;
      [by apply (runs_getitem_num "review_score" s (fun a h' => a = s ∧ h' = h))|].
    intros a h' _ [-> ->].
    eapply runs_bind;
      [by apply (runs_getitem_num "review_score" s (fun a h' => a = s ∧ h' = h))|].
    intros a h' _ [-> ->]. by apply runs_loc.
  - injection Hpure as <-. apply runs_ret. split; [done|by left].
Qed.

Lemma runs_filter_payment (p : string) (t' : table) :
  filter_payment t tc p = Ok t' →
  Store.runs (Store.filter_payment df cur p) h (Store.step_post h cur t').
Proof.
  unfold filter_payment, Store.filter_payment. intros Hpure.
  eapply runs_bind;
    [by apply (runs_has_col "payment_type"
                 (fun b h' => b = has_col "payment_type" t ∧ h' = h))|].
  intros b h' _ [-> ->].
  destruct (has_col "payment_type" t && negb (p =? "All")%string).
  - destruct (getitem_txt tc "payment_type") as [s|e] eqn:Hs; [|done].
    simpl in Hpure.
    eapply runs_bind;
      [by apply (runs_getitem_txt "payment_type" s (fun a h' => a = s ∧ h' = h))|].
    intros a h' _ [-> ->]. by apply runs_loc.
  - injection Hpure as <-. apply runs_ret. split; [done|by left].
Qed.
  End steps.

Lemma step_post_newer (h0 h h' : Store.store) (cur res : Store.ref) (t' : table) :
  h0 `prefix_of` h → (length h0 ≤ cur)%nat → Store.step_post h cur t' res h' →
  h' !! res = Some t' ∧ (length h0 ≤ res)%nat.
Proof.
  intros Hpre Hcur [Hres [->|Hnew]]; split; try done.
  apply prefix_length in Hpre. lia.
Qed.

(** From a store where [df] holds [t], the filter runs, leaves every
    object as it was, and returns a new object that holds the rows of [t]
    that pass [keeps]. *)
Lemma runs_apply_filters (h : Store.store) (df : Store.ref) (t : table)
    (sel : selections) :
  h !! df = Some t →
  Store.runs (Store.apply_filters df sel) h
    (fun res h' =>
       (length h ≤ res)%nat
       ∧ h' !! res =
         Some {| columns := columns t;
                 rows := List.filter (keeps (columns t) sel) (rows t) |}).
Proof.
  intros Hdf. unfold Store.apply_filters.
  eapply runs_bind.
  { unfold Store.copy. eapply runs_bind;
      [by apply (runs_deref df t h (fun a h' => a = t ∧ h' = h))|].
    intros a h' _ [-> ->].
    by apply (runs_new _ _ (fun res h' =>
                (length h ≤ res)%nat ∧ h' !! res = Some (copy t))),
             (conj (Nat.le_refl _) (lookup_new h (copy t))). }
  intros c0 h0 P0 [N0 L0].
  eapply runs_bind.
  { eapply (runs_filter_isin h0 df c0 t _ (prefix_lookup_Some _ _ _ _ Hdf P0) L0).
    apply (filter_isin_rows t (rows t)). }
  intros c1 h1 P1 Q1.
  apply (step_post_newer h h0 h1 c0 c1 _ P0 N0) in Q1 as [L1 N1].
  assert (P1' : h `prefix_of` h1) by by etrans.
  eapply runs_bind.
  { eapply (runs_filter_isin h1 df c1 t _ (prefix_lookup_Some _ _ _ _ Hdf P1') L1).
    apply filter_isin_rows. }
  intros c2 h2 P2 Q2.
  apply (step_post_newer h h1 h2 c1 c2 _ P1' N1) in Q2 as [L2 N2].
  assert (P2' : h `prefix_of` h2) by by etrans.
  eapply runs_bind.
  { eapply (runs_filter_isin h2 df c2 t _ (prefix_lookup_Some _ _ _ _ Hdf P2') L2).
    apply filter_isin_rows. }
  intros c3 h3 P3 Q3.
  apply (step_post_newer h h2 h3 c2 c3 _ P2' N2) in Q3 as [L3 N3].
  assert (P3' : h `prefix_of` h3) by by etrans.
  eapply runs_bind.
  { eapply (runs_filter_review h3 df c3 t _ (prefix_lookup_Some _ _ _ _ Hdf P3') L3).
    apply filter_review_rows. }
  intros c4 h4 P4 Q4.
  apply (step_post_newer h h3 h4 c3 c4 _ P3' N3) in Q4 as [L4 N4].
  assert (P4' : h `prefix_of` h4) by by etrans.
  eapply runs_bind.
  { eapply (runs_filter_payment h4 df c4 t _ (prefix_lookup_Some _ _ _ _ Hdf P4') L4).
    apply filter_payment_rows. }
  intros c5 h5 P5 Q5.
  apply (step_post_newer h h4 h5 c4 c5 _ P4' N4) in Q5 as [L5 N5].
  apply runs_ret. split; [done|].
  rewrite L5. do 2 f_equal. rewrite !filter_filter.
  apply filter_ext_in. intros r _. unfold keeps. by rewrite !andb_assoc.
Qed.
End StoreFacts.

(** C9: the filter leaves the source table, and every other object, as it
    was; its result is another object, which holds the table the filter
    computes, and each of its rows is a row of the source. *)
Theorem apply_filters_leaves_source (h : Store.store) (df : Store.ref) (t : table)
    (sel : selections) :
  h !! df = Some t →
  ∃ res h' t',
    Store.apply_filters df sel h = Ok (res, h')
    ∧ h' !! df = Some t
    ∧ (∀ l o, h !! l = Some o → h' !! l = Some o)
    ∧ res ≠ df
    ∧ h' !! res = Some t'
    ∧ apply_filters t sel = Ok t'
    ∧ (∀ r, r ∈ rows t' → r ∈ rows t).
Proof.
  intros Hdf.
  destruct (StoreFacts.runs_apply_filters h df t sel Hdf)
    as (res & h' & Hrun & Hpre & Hnew & Hres).
  exists res, h'. eexists. split; [exact Hrun|].
  split; [by eapply prefix_lookup_Some|].
  split; [intros l o Hl; by eapply prefix_lookup_Some|].
  split.
  { apply lookup_lt_Some in Hdf. lia. }
  split; [exact Hres|].
  split; [apply apply_filters_keeps|].
  simpl. intros r Hr. by apply elem_of_filter in Hr as [Hr _].
Qed.

Lemma apply_filters_leaves_source_witness :
  [three_orders] !! 0%nat = Some three_orders
  ∧ ∃ res h' t',
      Store.apply_filters 0%nat only_fives [three_orders] = Ok (res, h')
      ∧ h' !! 0%nat = Some three_orders
      ∧ (∀ l o, [three_orders] !! l = Some o → h' !! l = Some o)
      ∧ res ≠ 0%nat
      ∧ h' !! res = Some t'
      ∧ apply_filters three_orders only_fives = Ok t'
      ∧ (∀ r, r ∈ rows t' → r ∈ rows three_orders).
Proof.
  split; [reflexivity|].
  apply (apply_filters_leaves_source [three_orders] 0%nat three_orders only_fives).
  reflexivity.
Defined.

(** ** Removing a column *)

Section drop.
Variable c : string.
Variable df : table.





End drop.

(** *** The charts *)


Local Opaque head sort_values value_counts.
















Local Transparent head sort_values value_counts.

(** *** The filter *)


Section absent_column.
Variables (c : string) (cols : list string).
Hypothesis Hc : c ∉ cols.







End absent_column.



(** *** The metrics *)



(** *** The sidebar *)








(** * Further properties of the pipeline *)

(** ** The filter *)

Lemma filter_sublist {A} (p : A → bool) (l : list A) : List.filter p l `sublist_of` l.
Proof.
  induction l as [|x l IH]; simpl; [done|].
  destruct (p x); [by apply sublist_skip | by apply sublist_cons].
Qed.

Lemma filter_sublist_impl {A} (p q : A → bool) (l : list A) :
  (∀ x, p x = true → q x = true) →
  List.filter p l `sublist_of` List.filter q l.
Proof.
  intros Hpq. induction l as [|x l IH]; simpl; [done|].
  destruct (p x) eqn:Hp.
  - rewrite (Hpq x Hp). by apply sublist_skip.
  - destruct (q x); [by apply sublist_cons | done].
Qed.

(** X1: the filter returns the column labels of its input and some of its
    rows in their order, so never more rows than it was given. *)
Theorem apply_filters_sublist (df : table) (sel : selections) :
  ∃ filtered,
    apply_filters df sel = Ok filtered
    ∧ columns filtered = columns df
    ∧ rows filtered `sublist_of` rows df
    ∧ len filtered ≤ len df.
Proof.
  eexists. split; [apply apply_filters_keeps|]. simpl.
  split; [done|]. split; [apply filter_sublist|].
  unfold len. simpl. apply inj_le, sublist_length, filter_sublist.
Qed.

(** X2: two sets of selections can be applied one after the other in either
    order, with the same result. *)
Theorem apply_filters_commute (df : table) (sel1 sel2 : selections) :
  ∃ first second both,
    apply_filters df sel1 = Ok first
    ∧ apply_filters first sel2 = Ok both
    ∧ apply_filters df sel2 = Ok second
    ∧ apply_filters second sel1 = Ok both.
Proof.
  do 3 eexists. split; [apply apply_filters_keeps|].
  split; [apply apply_filters_keeps|].
  split; [apply apply_filters_keeps|].
  rewrite apply_filters_keeps. simpl. do 2 f_equal.
  rewrite !filter_filter. apply filter_ext_in. intros r _. apply andb_comm.
Qed.

Lemma keeps_review (cols : list string) (sel : selections) (r : row) :
  "review_score" ∈ cols →
  keeps cols sel r = true →
  ∃ q, num r !! "review_score" = Some q
       ∧ (inject_Z (min_review sel) <= q)%Q ∧ (q <= inject_Z (max_review sel))%Q.
Proof.
  intros Hc Hk. unfold keeps in Hk.
  apply andb_prop in Hk as [Hk _]. apply andb_prop in Hk as [_ Hk].
  unfold passes_review in Hk. rewrite bool_decide_eq_true_2 in Hk by done.
  destruct (num r !! "review_score") as [q|]; [|done].
  simpl in Hk. apply andb_prop in Hk as [Hlo Hhi].
  exists q. split; [done|]. split; by apply Qle_bool_iff.
Qed.

(** The filtered table, its labels and the review scores of its rows. *)
Lemma review_range_kept_rows (df : table) (sel : selections) :
  has_col "review_score" df = true →
  ∃ filtered,
    apply_filters df sel = Ok filtered
    ∧ columns filtered = columns df
    ∧ ∀ r, r ∈ rows filtered →
        ∃ q, num r !! "review_score" = Some q
             ∧ (inject_Z (min_review sel) <= q)%Q
             ∧ (q <= inject_Z (max_review sel))%Q.
Proof.
  intros Hc. apply bool_decide_eq_true in Hc.
  eexists. split; [apply apply_filters_keeps|]. simpl. split; [done|].
  intros r Hr. apply elem_of_filter in Hr as [_ Hk].
  by apply (keeps_review (columns df)).
Qed.

(** X3: when the table has a review_score column, every row the filter
    keeps has a review score, and it lies in the selected range. *)
Theorem review_range_kept (df : table) (sel : selections) :
  has_col "review_score" df = true →
  ∃ filtered,
    apply_filters df sel = Ok filtered
    ∧ ∀ r, r ∈ rows filtered →
        ∃ q, num r !! "review_score" = Some q
             ∧ (inject_Z (min_review sel) <= q)%Q
             ∧ (q <= inject_Z (max_review sel))%Q.
Proof.
  intros Hc. apply bool_decide_eq_true in Hc.
  eexists. split; [apply apply_filters_keeps|]. simpl.
  intros r Hr. apply elem_of_filter in Hr as [_ Hk].
  by apply (keeps_review (columns df)).
Qed.

Lemma review_range_kept_witness :
  has_col "review_score" three_orders = true
  ∧ ∃ filtered,
      apply_filters three_orders only_fives = Ok filtered
      ∧ ∀ r, r ∈ rows filtered →
          ∃ q, num r !! "review_score" = Some q
               ∧ (inject_Z (min_review only_fives) <= q)%Q
               ∧ (q <= inject_Z (max_review only_fives))%Q.
Proof.
  split; [reflexivity|].
  apply (review_range_kept three_orders only_fives). reflexivity.
Defined.

(** X4: a review range whose upper end is below its lower end keeps no row
    of a table that has a review_score column. *)
Theorem inverted_review_range_empty (df : table) (sel : selections) :
  has_col "review_score" df = true →
  max_review sel < min_review sel →
  apply_filters df sel = Ok {| columns := columns df; rows := [] |}.
Proof.
  intros Hc Hlt. apply bool_decide_eq_true in Hc.
  rewrite apply_filters_keeps. do 2 f_equal.
  induction (rows df) as [|r rs IH]; simpl; [done|].
  destruct (keeps (columns df) sel r) eqn:Hk; [|done].
  destruct (keeps_review (columns df) sel r Hc Hk) as (q & _ & Hlo & Hhi).
  assert (H : (inject_Z (min_review sel) <= inject_Z (max_review sel))%Q)
    by (by apply Qle_trans with q).
  rewrite <- Zle_Qle in H. lia.
Qed.

Lemma inverted_review_range_empty_witness :
  has_col "review_score" three_orders = true
  ∧ max_review (Selections ["All"] ["All"] ["All"] 5 3 "All")
    < min_review (Selections ["All"] ["All"] ["All"] 5 3 "All")
  ∧ apply_filters three_orders (Selections ["All"] ["All"] ["All"] 5 3 "All")
    = Ok {| columns := columns three_orders; rows := [] |}.
Proof.
  split; [reflexivity|]. split; [reflexivity|].
  apply (inverted_review_range_empty three_orders
           (Selections ["All"] ["All"] ["All"] 5 3 "All")); reflexivity.
Defined.

Lemma ge_cell_weaken (lo lo' : Z) (v : option Q) :
  lo ≤ lo' → ge_cell lo' v = true → ge_cell lo v = true.
Proof.
  intros Hle. destruct v as [q|]; simpl; [|done].
  rewrite !Qle_bool_iff. intros H.
  apply Qle_trans with (inject_Z lo'); [by rewrite <- Zle_Qle|done].
Qed.

Lemma le_cell_weaken (hi hi' : Z) (v : option Q) :
  hi' ≤ hi → le_cell hi' v = true → le_cell hi v = true.
Proof.
  intros Hle. destruct v as [q|]; simpl; [|done].
  rewrite !Qle_bool_iff. intros H.
  apply Qle_trans with (inject_Z hi'); [done|by rewrite <- Zle_Qle].
Qed.

(** X5: narrowing the review range, all other selections unchanged, keeps
    some of the rows the wider range keeps, in their order. *)
Theorem narrower_review_range (df : table) (sel : selections) (lo hi : Z) :
  min_review sel ≤ lo →
  hi ≤ max_review sel →
  ∃ wide narrow,
    apply_filters df sel = Ok wide
    ∧ apply_filters df
        (Selections (selected_months sel) (selected_category sel)
           (selected_states sel) lo hi (selected_payment sel)) = Ok narrow
    ∧ rows narrow `sublist_of` rows wide.
Proof.
  intros Hlo Hhi. do 2 eexists.
  split; [apply apply_filters_keeps|]. split; [apply apply_filters_keeps|].
  simpl. apply filter_sublist_impl. intros r. unfold keeps. simpl.
  rewrite !andb_true_iff. intros [[[[Hm Hc] Hs] Hr] Hp].
  repeat split; try done.
  unfold passes_review in *. case_bool_decide; [|done].
  apply andb_prop in Hr as [Hge Hle]. apply andb_true_intro. split.
  - by apply (ge_cell_weaken _ lo).
  - by apply (le_cell_weaken _ hi).
Qed.

Lemma narrower_review_range_witness :
  min_review everything ≤ 4
  ∧ 4 ≤ max_review everything
  ∧ ∃ wide narrow,
      apply_filters three_orders everything = Ok wide
      ∧ apply_filters three_orders
          (Selections (selected_months everything) (selected_category everything)
             (selected_states everything) 4 4 (selected_payment everything))
        = Ok narrow
      ∧ rows narrow `sublist_of` rows wide.
Proof.
  assert (H1 : min_review everything ≤ 4) by (vm_compute; discriminate).
  assert (H2 : 4 ≤ max_review everything) by (vm_compute; discriminate).
  split; [exact H1|]. split; [exact H2|].
  exact (narrower_review_range three_orders everything 4 4 H1 H2).
Defined.

(** X6: when the table has a payment_type column and a payment type other
    than 'All' is chosen, every row the filter keeps has that payment
    type. *)
Theorem payment_filter_kept (df : table) (sel : selections) :
  has_col "payment_type" df = true →
  selected_payment sel ≠ "All" →
  ∃ filtered,
    apply_filters df sel = Ok filtered
    ∧ ∀ r, r ∈ rows filtered → txt r !! "payment_type" = Some (selected_payment sel).
Proof.
  intros Hc Hp. apply String.eqb_neq in Hp.
  eexists. split; [apply apply_filters_keeps|]. simpl.
  intros r Hr. apply elem_of_filter in Hr as [_ Hk].
  unfold keeps in Hk. apply andb_prop in Hk as [_ Hk].
  unfold passes_payment in Hk. unfold has_col in Hc. rewrite Hc, Hp in Hk.
  simpl in Hk. destruct (txt r !! "payment_type") as [w|]; [|done].
  simpl in Hk. apply String.eqb_eq in Hk. by subst.
Qed.

Lemma payment_filter_kept_witness :
  has_col "payment_type" three_orders = true
  ∧ selected_payment (Selections ["All"] ["All"] ["All"] 3 5 "voucher") ≠ "All"
  ∧ ∃ filtered,
      apply_filters three_orders (Selections ["All"] ["All"] ["All"] 3 5 "voucher")
      = Ok filtered
      ∧ ∀ r, r ∈ rows filtered →
          txt r !! "payment_type"
          = Some (selected_payment (Selections ["All"] ["All"] ["All"] 3 5 "voucher")).
Proof.
  assert (H : selected_payment (Selections ["All"] ["All"] ["All"] 3 5 "voucher")
              ≠ "All") by (simpl; discriminate).
  split; [reflexivity|]. split; [exact H|].
  exact (payment_filter_kept three_orders
           (Selections ["All"] ["All"] ["All"] 3 5 "voucher") eq_refl H).
Defined.

(** ** The KPIs of a filtered table *)

Lemma Qsum_lower (a : Q) (l : list Q) :
  (∀ x, x ∈ l → (a <= x)%Q) →
  (a * inject_Z (Z.of_nat (length l)) <= Qsum l)%Q.
Proof.
  induction l as [|x l IH]; intros H.
  - simpl. setoid_replace (a * inject_Z 0)%Q with 0%Q using relation Qeq by ring.
    apply Qle_refl.
  - cbn [length Qsum foldr]. rewrite Nat2Z.inj_succ. unfold Z.succ.
    rewrite inject_Z_plus.
    setoid_replace (a * (inject_Z (Z.of_nat (length l)) + inject_Z 1))%Q
      with (a + a * inject_Z (Z.of_nat (length l)))%Q using relation Qeq by ring.
    apply Qplus_le_compat; [apply H; constructor|].
    apply IH. intros y Hy. apply H. by constructor.
Qed.

Lemma Qsum_upper (b : Q) (l : list Q) :
  (∀ x, x ∈ l → (x <= b)%Q) →
  (Qsum l <= b * inject_Z (Z.of_nat (length l)))%Q.
Proof.
  induction l as [|x l IH]; intros H.
  - simpl. setoid_replace (b * inject_Z 0)%Q with 0%Q using relation Qeq by ring.
    apply Qle_refl.
  - cbn [length Qsum foldr]. rewrite Nat2Z.inj_succ. unfold Z.succ.
    rewrite inject_Z_plus.
    setoid_replace (b * (inject_Z (Z.of_nat (length l)) + inject_Z 1))%Q
      with (b + b * inject_Z (Z.of_nat (length l)))%Q using relation Qeq by ring.
    apply Qplus_le_compat; [apply H; constructor|].
    apply IH. intros y Hy. apply H. by constructor.
Qed.

(** The mean of cells between [a] and [b] lies between [a] and [b]. *)
Lemma mean_cells_bounds (a b : Q) (l : list Q) :
  l ≠ [] →
  (∀ x, x ∈ l → (a <= x)%Q ∧ (x <= b)%Q) →
  ∃ m, mean_cells l = Some m ∧ (a <= m)%Q ∧ (m <= b)%Q.
Proof.
  intros Hne H.
  assert (Hpos : (0 < inject_Z (Z.of_nat (length l)))%Q).
  { change 0%Q with (inject_Z 0). rewrite <- Zlt_Qlt.
    destruct l; [done|]. simpl. lia. }
  destruct l as [|x l']; [done|]. eexists. split; [reflexivity|].
  set (l := x :: l') in *. split.
  - apply Qle_shift_div_l; [done|].
    apply Qsum_lower. intros y Hy. by apply H.
  - apply Qle_shift_div_r; [done|].
    apply Qsum_upper. intros y Hy. by apply H.
Qed.

(** X7: on a table with a review_score column, the average rating of the
    filtered rows is a number within the selected review range, unless the
    filter keeps no row and the average is the integer 0. *)
Theorem avg_rating_in_range (df : table) (sel : selections) :
  has_col "review_score" df = true →
  ∃ filtered k,
    apply_filters df sel = Ok filtered
    ∧ calculate_kpis filtered = Ok k
    ∧ ((len filtered = 0 ∧ avg_rating k = Int 0)
       ∨ ∃ q, avg_rating k = Float q
              ∧ (inject_Z (min_review sel) <= q)%Q
              ∧ (q <= inject_Z (max_review sel))%Q).
Proof.
  intros Hc.
  destruct (review_range_kept_rows df sel Hc) as (filtered & Hf & Hcols & Hrows).
  exists filtered.
  destruct (decide (len filtered = 0)) as [Hlen|Hlen].
  - eexists. split; [done|]. split; [by apply calculate_kpis_no_rows|]. by left.
  - eexists. split; [done|]. split; [by apply calculate_kpis_rows|]. right.
    cbn [avg_rating]. unfold has_col in *. rewrite Hcols, Hc.
    assert (Hsome : ∃ r, r ∈ rows filtered).
    { unfold len in Hlen. destruct (rows filtered) as [|r rs]; [done|].
      exists r. constructor. }
    destruct Hsome as [r0 Hr0].
    set (s := (fun r => num r !! "review_score") <$> rows filtered).
    assert (Hin : ∀ x, x ∈ present s →
              (inject_Z (min_review sel) <= x)%Q ∧ (x <= inject_Z (max_review sel))%Q).
    { intros x Hx. apply elem_of_present in Hx. subst s.
      apply list_elem_of_fmap in Hx as (r & Hx & Hr).
      destruct (Hrows r Hr) as (q & Hq & Hb). rewrite Hq in Hx.
      by injection Hx as ->. }
    assert (Hne : present s ≠ []).
    { destruct (Hrows r0 Hr0) as (q & Hq & _).
      intros Hnil. assert (Hq' : q ∈ present s).
      { apply elem_of_present. subst s. rewrite <- Hq.
        apply list_elem_of_fmap. by exists r0. }
      rewrite Hnil in Hq'. by apply elem_of_nil in Hq'. }
    destruct (mean_cells_bounds _ _ _ Hne Hin) as (m & Hm & Hlo & Hhi).
    exists m. unfold mean. by rewrite Hm.
Qed.

Lemma avg_rating_in_range_witness :
  has_col "review_score" three_orders = true
  ∧ ∃ filtered k,
      apply_filters three_orders everything = Ok filtered
      ∧ calculate_kpis filtered = Ok k
      ∧ ((len filtered = 0 ∧ avg_rating k = Int 0)
         ∨ ∃ q, avg_rating k = Float q
                ∧ (inject_Z (min_review everything) <= q)%Q
                ∧ (q <= inject_Z (max_review everything))%Q).
Proof.
  split; [reflexivity|].
  apply (avg_rating_in_range three_orders everything). reflexivity.
Defined.

(** ** What the script raises *)

Lemma calculate_kpis_returns (df : table) : ∃ k, calculate_kpis df = Ok k.
Proof.
  destruct (decide (len df = 0)) as [Hlen|Hlen]; eexists;
    [by apply calculate_kpis_no_rows | by apply calculate_kpis_rows].
Qed.

Lemma options_error (df : table) (c : string) (reverse : bool) (e : error) :
  options df c reverse = Err e → e = TypeError.
Proof.
  unfold options, getitem_txt, py_sorted.
  destruct (has_col c df); simpl; [|done].
  repeat case_match; simpl; congruence.
Qed.

Lemma review_bounds_error (df : table) (e : error) :
  review_bounds df = Err e → e = ValueError.
Proof.
  unfold review_bounds, getitem_num, py_int.
  destruct (has_col "review_score" df); simpl; [|done].
  repeat case_match; simpl; congruence.
Qed.

Lemma review_slider_error (df : table) (e : error) :
  review_slider df = Err e → e = ValueError ∨ e = StreamlitAPIException.
Proof.
  unfold review_slider, slider.
  destruct (has_col "review_score" df); [|done].
  destruct (review_bounds df) as [[lo hi]|e'] eqn:Hb; simpl.
  - destruct (lo <? hi); [done|]. intros [= <-]. by right.
  - intros [= <-]. left. by eapply review_bounds_error.
Qed.

Lemma sidebar_error (df : table) (e : error) :
  sidebar df = Err e → e = TypeError ∨ e = ValueError ∨ e = StreamlitAPIException.
Proof.
  unfold sidebar.
  destruct (options df "order_month" false) eqn:E1; simpl;
    [|intros [= <-]; left; by eapply options_error].
  destruct (options df "product_category_name_english" true) eqn:E2; simpl;
    [|intros [= <-]; left; by eapply options_error].
  destruct (options df "customer_state" true) eqn:E3; simpl;
    [|intros [= <-]; left; by eapply options_error].
  destruct (review_slider df) eqn:E4; simpl;
    [|intros [= <-]; right; by eapply review_slider_error].
  destruct (options df "payment_type" false) eqn:E5; simpl;
    [done|intros [= <-]; left; by eapply options_error].
Qed.

(** The chart builder raises nothing but the [ValueError] of a bar chart
    without bars. *)
Lemma sequence_error (parts : list (result (list event))) (e : error) :
  Forall (fun part => ∀ e', part = Err e' → e' = ValueError) parts →
  sequence parts = Err e → e = ValueError.
Proof.
  induction 1 as [|part parts Hpart _ IH]; simpl; [done|].
  destruct part as [es|e1]; simpl; [|intros [= <-]; by apply Hpart].
  destruct (sequence parts) as [es'|e2]; simpl; [done|].
  intros [= <-]. by apply IH.
Qed.

Ltac part_error :=
  let e := fresh "e" in
  intros e; unfold when, px_bar, groupby_agg, getitem_txt, getitem_num;
  repeat match goal with
         | |- context [has_col ?x ?df] => destruct (has_col x df)
         end;
  simpl;
  repeat match goal with
         | |- context [match ?s with [] => _ | _ :: _ => _ end] => destruct s
         end;
  congruence.

Local Opaque head sort_values value_counts.

Lemma create_visualizations_error (df : table) (e : error) :
  create_visualizations df = Err e → e = ValueError.
Proof.
  apply sequence_error.
  repeat first [apply Forall_nil_2 | apply Forall_cons_2].
  - part_error.
  - unfold monthly_sales. part_error.
  - unfold top_states_by_sales. part_error.
  - part_error.
  - unfold top_categories. part_error.
  - unfold price_histogram. part_error.
  - unfold scatter. part_error.
  - part_error.
  - unfold delivery_box. part_error.
  - unfold delivery_by_state. part_error.
  - unfold scatter. part_error.
  - part_error.
  - unfold payment_pie. part_error.
  - unfold rating_by_payment. part_error.
Qed.

Local Transparent head sort_values value_counts.

Lemma main_raises_of_sidebar (fs : gmap string table) (u : session) (df : table)
    (e : error) :
  fs !! "ecommerce.csv" = Some df → sidebar df = Err e → main fs u = Err e.
Proof.
  intros Hfs Hs. unfold main, load_ecommerce_data. by rewrite Hfs, Hs.
Qed.

Lemma main_raises_of_charts (fs : gmap string table) (u : session)
    (df filtered : table) (side : list event) (e : error) :
  fs !! "ecommerce.csv" = Some df →
  sidebar df = Ok side →
  apply_filters df (pick u) = Ok filtered →
  0 < len filtered →
  create_visualizations filtered = Err e →
  main fs u = Err e.
Proof.
  intros Hfs Hs Hf Hlen Hc. unfold main, load_ecommerce_data.
  rewrite Hfs, Hs. simpl. rewrite Hf. simpl.
  destruct (calculate_kpis_returns filtered) as [k ->]. simpl.
  apply Z.ltb_lt in Hlen. by rewrite Hlen, Hc.
Qed.

Lemma main_raises_inv (fs : gmap string table) (u : session) (e : error) :
  main fs u = Err e →
  ∃ df, fs !! "ecommerce.csv" = Some df
    ∧ (sidebar df = Err e
       ∨ ∃ side filtered,
           sidebar df = Ok side
           ∧ apply_filters df (pick u) = Ok filtered
           ∧ 0 < len filtered
           ∧ create_visualizations filtered = Err e).
Proof.
  unfold main, load_ecommerce_data.
  destruct (fs !! "ecommerce.csv") as [df|]; [|done].
  destruct (sidebar df) as [side|e'] eqn:Hside; simpl.
  - rewrite apply_filters_keeps. simpl.
    set (filtered := {| columns := columns df; rows := _ |}).
    destruct (calculate_kpis_returns filtered) as [k ->]. simpl.
    destruct (0 <? len filtered) eqn:Hlen; [|done].
    destruct (create_visualizations filtered) as [es|e''] eqn:Hc; [done|].
    simpl. intros [= <-]. exists df. split; [done|]. right.
    exists side, filtered. apply Z.ltb_lt in Hlen. by rewrite apply_filters_keeps.
  - intros [= <-]. exists df. split; [done|]. by left.
Qed.

(** X8: the script raises an error exactly when the file is there and
    either building the sidebar raises it, or the sidebar is built, the
    filter keeps a row and the chart builder raises it on the filtered
    table: the filter and the KPIs add no error of their own. *)
Theorem main_raises_from_sidebar_or_charts (fs : gmap string table) (u : session)
    (e : error) :
  main fs u = Err e ↔
  ∃ df, fs !! "ecommerce.csv" = Some df
    ∧ (sidebar df = Err e
       ∨ ∃ side filtered,
           sidebar df = Ok side
           ∧ apply_filters df (pick u) = Ok filtered
           ∧ 0 < len filtered
           ∧ create_visualizations filtered = Err e).
Proof.
  split; [apply main_raises_inv|].
  intros (df & Hfs & [Hs|(side & filtered & Hs & Hf & Hlen & Hc)]).
  - by apply (main_raises_of_sidebar fs u df).
  - by apply (main_raises_of_charts fs u df filtered side).
Qed.

(** X9: whatever the file holds, the script never raises [KeyError]: every
    column it reads is guarded. *)
Theorem main_no_key_error (fs : gmap string table) (u : session) (c : string) :
  main fs u ≠ Err (KeyError c).
Proof.
  intros H.
  apply main_raises_inv in H as (df & _ & [Hs|(side & filtered & _ & _ & _ & Hc)]).
  - by apply sidebar_error in Hs as [?|[?|?]].
  - by apply create_visualizations_error in Hc.
Qed.

Lemma elem_of_distinct {A} `{EqDecision A} (l : list A) (x : A) :
  x ∈ distinct l ↔ x ∈ l.
Proof.
  unfold distinct. by rewrite elem_of_reverse, elem_of_remove_dups, elem_of_reverse.
Qed.

Lemma NoDup_distinct {A} `{EqDecision A} (l : list A) : NoDup (distinct l).
Proof. unfold distinct. rewrite reverse_Permutation. apply NoDup_remove_dups. Qed.

Lemma options_empty (df : table) (c : string) (reverse : bool) :
  rows df = [] → ∃ l, options df c reverse = Ok l.
Proof.
  intros Hrows. unfold options, getitem_txt. rewrite Hrows.
  destruct (has_col c df); simpl; [|by eexists].
  destruct reverse; by eexists.
Qed.

(** X10: a file with a review_score column and no rows makes the script
    raise [ValueError], from the bounds of the review slider. *)
Theorem main_empty_review_column (fs : gmap string table) (u : session) (df : table) :
  fs !! "ecommerce.csv" = Some df →
  has_col "review_score" df = true →
  rows df = [] →
  main fs u = Err ValueError.
Proof.
  intros Hfs Hc Hrows. apply (main_raises_of_sidebar fs u df); [done|].
  unfold sidebar.
  destruct (options_empty df "order_month" false Hrows) as [? ->].
  destruct (options_empty df "product_category_name_english" true Hrows) as [? ->].
  destruct (options_empty df "customer_state" true Hrows) as [? ->].
  simpl. unfold review_slider, review_bounds, getitem_num. by rewrite Hc, Hrows.
Qed.

Lemma main_empty_review_column_witness :
  ({[ "ecommerce.csv" := Table ["review_score"; "price"] [] ]} : gmap string table)
    !! "ecommerce.csv" = Some (Table ["review_score"; "price"] [])
  ∧ has_col "review_score" (Table ["review_score"; "price"] []) = true
  ∧ rows (Table ["review_score"; "price"] []) = []
  ∧ main {[ "ecommerce.csv" := Table ["review_score"; "price"] [] ]}
      (Session everything false (fun _ => "20240101_120000")) = Err ValueError.
Proof.
  split; [reflexivity|]. split; [reflexivity|]. split; [reflexivity|].
  apply (main_empty_review_column _ _ (Table ["review_score"; "price"] []));
    reflexivity.
Defined.

Lemma options_mixed (df : table) (c : string) (reverse : bool) (r r' : row)
    (l : string) :
  has_col c df = true →
  r ∈ rows df → txt r !! c = None →
  r' ∈ rows df → txt r' !! c = Some l →
  options df c reverse = Err TypeError.
Proof.
  intros Hc Hr Hnone Hr' Hsome. unfold options, getitem_txt. rewrite Hc. simpl.
  set (s := (fun r => txt r !! c) <$> rows df).
  assert (H1 : None ∈ unique s).
  { apply elem_of_distinct. subst s. rewrite <- Hnone.
    apply list_elem_of_fmap. by exists r. }
  assert (H2 : present (unique s) ≠ []).
  { assert (H : l ∈ present (unique s)).
    { apply elem_of_present, elem_of_distinct. subst s. rewrite <- Hsome.
      apply list_elem_of_fmap. by exists r'. }
    intros E. rewrite E in H. by apply elem_of_nil in H. }
  unfold py_sorted. rewrite (bool_decide_eq_true_2 _ H1).
  by rewrite (bool_decide_eq_false_2 _ H2).
Qed.

(** X11: when one of the four label columns of the sidebar has a row with a
    label and a row without one, building the sidebar raises. *)
Theorem sidebar_mixed_labels (df : table) (c : string) (r r' : row) (l : string) :
  c ∈ label_columns →
  has_col c df = true →
  r ∈ rows df → txt r !! c = None →
  r' ∈ rows df → txt r' !! c = Some l →
  raises (sidebar df).
Proof.
  intros Hcol Hc Hr Hnone Hr' Hsome.
  assert (Hopt : ∀ reverse, options df c reverse = Err TypeError)
    by (intros reverse; by apply (options_mixed df c reverse r r' l)).
  unfold raises, sidebar, label_columns in *.
  repeat (apply elem_of_cons in Hcol as [->|Hcol]); [..|by apply elem_of_nil in Hcol].
  - rewrite Hopt. by eexists.
  - destruct (options df "order_month" false); simpl; [|by eexists].
    rewrite Hopt. by eexists.
  - destruct (options df "order_month" false); simpl; [|by eexists].
    destruct (options df "product_category_name_english" true); simpl; [|by eexists].
    rewrite Hopt. by eexists.
  - destruct (options df "order_month" false); simpl; [|by eexists].
    destruct (options df "product_category_name_english" true); simpl; [|by eexists].
    destruct (options df "customer_state" true); simpl; [|by eexists].
    destruct (review_slider df); simpl; [|by eexists].
    rewrite Hopt. by eexists.
Qed.

Lemma sidebar_mixed_labels_witness :
  "customer_state" ∈ label_columns
  ∧ has_col "customer_state"
      (Table ["customer_state"] [Row ∅ ∅; Row {[ "customer_state" := "SP" ]} ∅]) = true
  ∧ raises (sidebar
      (Table ["customer_state"] [Row ∅ ∅; Row {[ "customer_state" := "SP" ]} ∅])).
Proof.
  assert (H : "customer_state" ∈ label_columns) by (do 2 constructor; constructor).
  split; [exact H|]. split; [reflexivity|].
  apply (sidebar_mixed_labels
           (Table ["customer_state"] [Row ∅ ∅; Row {[ "customer_state" := "SP" ]} ∅])
           "customer_state" (Row ∅ ∅) (Row {[ "customer_state" := "SP" ]} ∅) "SP" H).
  - reflexivity.
  - constructor.
  - reflexivity.
  - do 2 constructor.
  - reflexivity.
Defined.

(** ** The options of the sidebar *)

Lemma NoDup_present {A} (s : series A) : NoDup s → NoDup (present s).
Proof.
  unfold present. induction s as [|[x|] s IH]; csimpl; intros H.
  - constructor.
  - apply NoDup_cons in H as [Hx H]. apply NoDup_cons. split; [|by apply IH].
    intros Hin. apply Hx. by apply (elem_of_present s x).
  - apply NoDup_cons in H as [_ H]. by apply IH.
Qed.

Local Instance leb_total : Total (fun a b => Is_true (String.leb a b)).
Proof.
  intros a b. destruct (String.leb_total a b) as [H|H]; rewrite H; [by left|by right].
Qed.

Local Instance geb_total : Total (fun a b => Is_true (String.leb b a)).
Proof.
  intros a b. destruct (String.leb_total a b) as [H|H]; rewrite H; [by right|by left].
Qed.

Lemma options_labels (df : table) (c : string) (reverse : bool) :
  has_col c df = true →
  (∀ r, r ∈ rows df → is_Some (txt r !! c)) →
  ∃ l,
    options df c reverse = Ok (Some "All" :: (Some <$> l))
    ∧ NoDup l
    ∧ (∀ x, x ∈ l ↔ ∃ r, r ∈ rows df ∧ txt r !! c = Some x)
    ∧ Sorted (fun a b => Is_true (if reverse then String.leb b a else String.leb a b)) l.
Proof.
  intros Hc Hall. unfold options, getitem_txt. rewrite Hc. simpl.
  set (s := (fun r => txt r !! c) <$> rows df).
  assert (Hnone : None ∉ unique s).
  { intros H. unfold unique in H. rewrite elem_of_distinct in H. subst s.
    apply list_elem_of_fmap in H as (r & Hr & Hin).
    destruct (Hall r Hin) as [x Hx]. congruence. }
  assert (Hmem : ∀ x, x ∈ present (unique s) ↔ ∃ r, r ∈ rows df ∧ txt r !! c = Some x).
  { intros x. rewrite elem_of_present. unfold unique. rewrite elem_of_distinct.
    subst s. rewrite list_elem_of_fmap. split.
    - intros (r & Hr & Hin). by exists r.
    - intros (r & Hin & Hr). by exists r. }
  assert (Hnd : NoDup (present (unique s))) by apply NoDup_present, NoDup_distinct.
  unfold py_sorted. rewrite (bool_decide_eq_false_2 _ Hnone). simpl.
  destruct reverse; simpl; eexists; (split; [reflexivity|]).
  - split; [by rewrite merge_sort_Permutation|].
    split; [intros x; by rewrite merge_sort_Permutation|].
    apply (Sorted_merge_sort _).
  - split; [by rewrite merge_sort_Permutation|].
    split; [intros x; by rewrite merge_sort_Permutation|].
    apply (Sorted_merge_sort _).
Qed.

(** X12: for a column in which every row has a label, the options of its
    widget are 'All' followed by the labels of the column, each once, in
    ascending order (descending when the list is reversed). *)
Theorem options_sorted (df : table) (c : string) (reverse : bool) :
  has_col c df = true →
  (∀ r, r ∈ rows df → is_Some (txt r !! c)) →
  ∃ l,
    options df c reverse = Ok (Some "All" :: (Some <$> l))
    ∧ NoDup l
    ∧ (∀ x, x ∈ l ↔ ∃ r, r ∈ rows df ∧ txt r !! c = Some x)
    ∧ Sorted (fun a b => Is_true (if reverse then String.leb b a else String.leb a b)) l.
Proof. exact (options_labels df c reverse). Qed.

Lemma three_orders_states (r : row) :
  r ∈ rows three_orders → is_Some (txt r !! "customer_state").
Proof.
  intros Hr. unfold three_orders in Hr. simpl in Hr.
  repeat (apply elem_of_cons in Hr as [->|Hr]); [by eexists..|].
  by apply elem_of_nil in Hr.
Qed.

Lemma options_sorted_witness :
  has_col "customer_state" three_orders = true
  ∧ ∃ l,
      options three_orders "customer_state" true = Ok (Some "All" :: (Some <$> l))
      ∧ NoDup l
      ∧ (∀ x, x ∈ l ↔ ∃ r, r ∈ rows three_orders ∧ txt r !! "customer_state" = Some x)
      ∧ Sorted (fun a b => Is_true (if true then String.leb b a else String.leb a b)) l.
Proof.
  split; [reflexivity|].
  apply (options_sorted three_orders "customer_state" true);
    [reflexivity | exact three_orders_states].
Defined.


(** ** Sorting *)

Section stable_sort.
Context {A : Type} (leb : A → A → bool).
Hypothesis leb_total : ∀ x y, leb x y = true ∨ leb y x = true.

Lemma insert_sorted_Permutation (x : A) (l : list A) :
  insert_sorted leb x l ≡ₚ x :: l.
Proof.
  induction l as [|y l IH]; simpl; [done|].
  destruct (leb x y); [done|]. rewrite IH. apply Permutation_swap.
Qed.

Lemma stable_sort_Permutation (l : list A) : stable_sort leb l ≡ₚ l.
Proof.
  induction l as [|x l IH]; simpl; [done|].
  by rewrite insert_sorted_Permutation, IH.
Qed.

Lemma insert_sorted_HdRel (a x : A) (l : list A) :
  Is_true (leb a x) → HdRel (fun a b => Is_true (leb a b)) a l →
  HdRel (fun a b => Is_true (leb a b)) a (insert_sorted leb x l).
Proof.
  intros Hax Hl. destruct l as [|y l]; simpl; [by constructor|].
  destruct (leb x y); constructor; [done|]. by inversion Hl.
Qed.

Lemma insert_sorted_Sorted (x : A) (l : list A) :
  Sorted (fun a b => Is_true (leb a b)) l →
  Sorted (fun a b => Is_true (leb a b)) (insert_sorted leb x l).
Proof.
  induction 1 as [|y l Hl IH Hy]; simpl; [by repeat constructor|].
  destruct (leb x y) eqn:E.
  - constructor; [by constructor|]. constructor. by rewrite E.
  - constructor; [done|]. apply insert_sorted_HdRel; [|done].
    destruct (leb_total x y) as [H|H]; [congruence|by rewrite H].
Qed.

Lemma stable_sort_Sorted (l : list A) :
  Sorted (fun a b => Is_true (leb a b)) (stable_sort leb l).
Proof.
  induction l as [|x l IH]; simpl; [constructor|].
  by apply insert_sorted_Sorted.
Qed.

(** The first [n] of a sorted list come before the others. *)
Lemma take_stable_sort `{!Transitive (fun a b => Is_true (leb a b))}
    (n : nat) (l : list A) :
  l ≡ₚ take n (stable_sort leb l) ++ drop n (stable_sort leb l)
  ∧ ∀ x y, x ∈ take n (stable_sort leb l) → y ∈ drop n (stable_sort leb l) →
           Is_true (leb x y).
Proof.
  split.
  - by rewrite take_drop, stable_sort_Permutation.
  - intros x y Hx Hy.
    apply (StronglySorted_app_1_elem_of (fun a b => Is_true (leb a b))
             (take n (stable_sort leb l)) (drop n (stable_sort leb l))); [|done..].
    rewrite take_drop. apply Sorted_StronglySorted; [done|].
    apply stable_sort_Sorted.
Qed.
End stable_sort.

Lemma number_leb_total (a b : number) : number_leb a b = true ∨ number_leb b a = true.
Proof.
  unfold number_leb. destruct (Q_of a) as [x|], (Q_of b) as [y|]; auto.
  destruct (Qlt_le_dec y x) as [H|H].
  - right. by apply Qle_bool_iff, Qlt_le_weak.
  - left. by apply Qle_bool_iff.
Qed.

Lemma number_geb_total (a b : number) : number_geb a b = true ∨ number_geb b a = true.
Proof.
  unfold number_geb. destruct (Q_of a) as [x|], (Q_of b) as [y|]; auto.
  destruct (Qlt_le_dec y x) as [H|H].
  - left. by apply Qle_bool_iff, Qlt_le_weak.
  - right. by apply Qle_bool_iff.
Qed.

Lemma number_leb_trans (a b c : number) :
  number_leb a b = true → number_leb b c = true → number_leb a c = true.
Proof.
  unfold number_leb.
  destruct (Q_of a) as [x|], (Q_of b) as [y|], (Q_of c) as [z|]; try done.
  rewrite !Qle_bool_iff. apply Qle_trans.
Qed.

Lemma number_geb_trans (a b c : number) :
  number_geb a b = true → number_geb b c = true → number_geb a c = true.
Proof.
  unfold number_geb.
  destruct (Q_of a) as [x|], (Q_of b) as [y|], (Q_of c) as [z|]; try done.
  rewrite !Qle_bool_iff. intros H1 H2. by apply Qle_trans with y.
Qed.

Local Instance by_value_trans : Transitive by_value.
Proof.
  intros a b c H1 H2. apply Is_true_true in H1, H2. apply Is_true_true.
  by apply number_leb_trans with b.2.
Qed.

Local Instance by_value_desc_trans : Transitive by_value_desc.
Proof.
  intros a b c H1 H2. apply Is_true_true in H1, H2. apply Is_true_true.
  by apply number_geb_trans with b.2.
Qed.

Lemma sort_values_Permutation (ascending : bool) (s : labelled) :
  sort_values ascending s ≡ₚ s.
Proof. apply stable_sort_Permutation. Qed.

Lemma length_sort_values (ascending : bool) (s : labelled) :
  length (sort_values ascending s) = length s.
Proof. apply Permutation_length, sort_values_Permutation. Qed.

Lemma sort_values_ascending (s : labelled) : Sorted by_value (sort_values true s).
Proof.
  apply (stable_sort_Sorted (fun a b => number_leb a.2 b.2)).
  intros x y. apply number_leb_total.
Qed.

Lemma sort_values_descending (s : labelled) :
  Sorted by_value_desc (sort_values false s).
Proof.
  apply (stable_sort_Sorted (fun a b => number_geb a.2 b.2)).
  intros x y. apply number_geb_total.
Qed.

(** The first [n] points in ascending order and the others. *)
Lemma head_ascending (n : nat) (s : labelled) :
  s ≡ₚ head n (sort_values true s) ++ drop n (sort_values true s)
  ∧ ∀ x y, x ∈ head n (sort_values true s) → y ∈ drop n (sort_values true s) →
           by_value x y.
Proof.
  apply (take_stable_sort (fun a b => number_leb a.2 b.2)).
  - intros x y. apply number_leb_total.
  - apply by_value_trans.
Qed.

Lemma head_descending (n : nat) (s : labelled) :
  s ≡ₚ head n (sort_values false s) ++ drop n (sort_values false s)
  ∧ ∀ x y, x ∈ head n (sort_values false s) → y ∈ drop n (sort_values false s) →
           by_value_desc x y.
Proof.
  apply (take_stable_sort (fun a b => number_geb a.2 b.2)).
  - intros x y. apply number_geb_total.
  - apply by_value_desc_trans.
Qed.

Lemma length_head (n : nat) (s : labelled) : length (head n s) = (n `min` length s)%nat.
Proof. unfold head. apply length_take. Qed.

(** ** The chart catalog *)

Local Opaque head sort_values value_counts.

Ltac list_part :=
  let df := fresh "df" in
  let es := fresh "es" in
  let H := fresh "H" in
  intros df es; unfold when, px_bar, groupby_agg, getitem_txt, getitem_num; simpl;
  repeat match goal with
         | |- context [has_col ?x df] => destruct (has_col x df) eqn:?
         end;
  simpl;
  repeat match goal with
         | |- context [match ?s with [] => _ | _ :: _ => _ end] => destruct s
         end;
  intros H; try discriminate H; injection H as <-;
  (split; [repeat constructor | reflexivity]).

Lemma monthly_sales_lists : lists monthly_sales ["Total Monthly Sales Over Time"].
Proof. unfold monthly_sales. list_part. Qed.

Lemma top_states_by_sales_lists : lists top_states_by_sales ["Top 10 States by Sales"].
Proof. unfold top_states_by_sales. list_part. Qed.

Lemma top_categories_lists :
  lists top_categories ["Top 10 Product Categories by Count"].
Proof. unfold top_categories. list_part. Qed.

Lemma price_histogram_lists : lists price_histogram ["Distribution of Product Prices"].
Proof. unfold price_histogram. list_part. Qed.

Lemma price_freight_lists :
  lists (fun df => scatter df "price" "freight_value"
                     "Freight Cost vs Product Price" false)
    ["Freight Cost vs Product Price"].
Proof. unfold scatter. list_part. Qed.

Lemma delivery_box_lists : lists delivery_box ["Delivery Time by Review Score"].
Proof. unfold delivery_box. list_part. Qed.

Lemma delivery_by_state_lists :
  lists delivery_by_state ["Top 10 States by Avg Delivery Time"].
Proof. unfold delivery_by_state. list_part. Qed.

Lemma delay_estimate_lists :
  lists (fun df => scatter df "estimated_days" "delivery_delay"
                     "Delivery Delay vs. Estimated Delivery Time" true)
    ["Delivery Delay vs. Estimated Delivery Time"].
Proof. unfold scatter. list_part. Qed.

Lemma payment_pie_lists : lists payment_pie ["Payment Method Distribution"].
Proof. unfold payment_pie. list_part. Qed.

Lemma rating_by_payment_lists :
  lists rating_by_payment ["Avg Review Score by Payment Type"].
Proof. unfold rating_by_payment. list_part. Qed.

Local Transparent head sort_values value_counts.

Lemma heading_lists (es : list event) :
  forallb (fun e => match e with Markdown _ => true | _ => false end) es = true →
  lists (fun _ => Ok es) [].
Proof.
  intros Hes df es' [= <-].
  rewrite forallb_forall in Hes. split.
  - apply Forall_forall. intros e He.
    apply list_elem_of_In, Hes in He. by destruct e.
  - simpl. unfold chart_titles. induction es as [|e es IH]; [done|].
    csimpl. rewrite IH by (intros x Hx; apply Hes; by right).
    specialize (Hes e (or_introl eq_refl)). by destruct e.
Qed.

Lemma chart_titles_app (es es' : list event) :
  chart_titles (es ++ es')%list = (chart_titles es ++ chart_titles es')%list.
Proof. apply omap_app. Qed.

Lemma sequence_lists (parts : list (table → result (list event)))
    (tss : list (list string)) :
  Forall2 lists parts tss →
  lists (fun df => sequence ((fun part => part df) <$> parts)) (concat tss).
Proof.
  induction 1 as [|part ts parts tss Hpart _ IH]; intros df es.
  - intros [= <-]. by split.
  - csimpl. destruct (part df) as [es1|] eqn:E1; [|done]. simpl.
    destruct (sequence ((fun part => part df) <$> parts)) as [es2|] eqn:E2; [|done].
    simpl. intros [= <-].
    destruct (Hpart df es1 E1) as [Hev Hts].
    destruct (IH df es2 E2) as [Hev2 Hts2].
    split; [by apply Forall_app|].
    by rewrite chart_titles_app, List.filter_app, Hts, Hts2.
Qed.

Lemma create_visualizations_lists : lists create_visualizations catalog.
Proof.
  apply (sequence_lists
    [ (fun _ => Ok [Markdown "---"; Markdown "### Data Visualizations";
                    Markdown "#### Sales Analytics"]);
      monthly_sales;
      top_states_by_sales;
      (fun _ => Ok [Markdown "#### Product Analytics"]);
      top_categories;
      price_histogram;
      (fun df => scatter df "price" "freight_value"
                   "Freight Cost vs Product Price" false);
      (fun _ => Ok [Markdown "#### Delivery Analytics"]);
      delivery_box;
      delivery_by_state;
      (fun df => scatter df "estimated_days" "delivery_delay"
                   "Delivery Delay vs. Estimated Delivery Time" true);
      (fun _ => Ok [Markdown "#### Payment Analytics"]);
      payment_pie;
      rating_by_payment ]
    [ []; ["Total Monthly Sales Over Time"]; ["Top 10 States by Sales"]; [];
      ["Top 10 Product Categories by Count"]; ["Distribution of Product Prices"];
      ["Freight Cost vs Product Price"]; [];
      ["Delivery Time by Review Score"]; ["Top 10 States by Avg Delivery Time"];
      ["Delivery Delay vs. Estimated Delivery Time"]; [];
      ["Payment Method Distribution"]; ["Avg Review Score by Payment Type"] ]).
  repeat first [apply List.Forall2_nil | apply List.Forall2_cons];
    auto using monthly_sales_lists, top_states_by_sales_lists,
      top_categories_lists, price_histogram_lists, price_freight_lists,
      delivery_box_lists, delivery_by_state_lists, delay_estimate_lists,
      payment_pie_lists, rating_by_payment_lists;
    by apply heading_lists.
Qed.

(** X13: when the chart builder returns, it returns, in the order of the
    catalog and between its headings, exactly the charts whose guard columns
    are all in the table; when it raises, it raises [ValueError]; and on a
    table without columns it returns its headings and no chart. *)
Theorem charts_by_columns (df : table) :
  (∀ es,
     create_visualizations df = Ok es →
     chart_titles es =
       List.filter (fun t => forallb (fun c => has_col c df) (chart_columns t)) catalog)
  ∧ (∀ e, create_visualizations df = Err e → e = ValueError)
  ∧ (columns df = [] →
     ∃ es, create_visualizations df = Ok es ∧ chart_titles es = []).
Proof.
  split; [|split].
  - intros es Hes. by destruct (create_visualizations_lists df es Hes).
  - apply create_visualizations_error.
  - intros Hnil.
    unfold create_visualizations, monthly_sales, top_states_by_sales, top_categories,
      price_histogram, scatter, delivery_box, delivery_by_state, payment_pie,
      rating_by_payment, when, has_col.
    rewrite Hnil. simpl. eexists. split; reflexivity.
Qed.

Lemma charts_by_columns_witness :
  ∃ es,
    create_visualizations three_orders = Ok es
    ∧ chart_titles es =
      ["Top 10 States by Sales"; "Payment Method Distribution";
       "Avg Review Score by Payment Type"].
Proof.
  destruct (charts_by_columns three_orders) as [Htitles _].
  eexists. split; [vm_compute; reflexivity|].
  etrans; [apply Htitles; vm_compute; reflexivity|].
  vm_compute. reflexivity.
Defined.

(** ** The page *)

Lemma sidebar_widgets (df : table) (side : list event) :
  sidebar df = Ok side → ∀ e, e ∈ side → is_widget e = true.
Proof.
  unfold sidebar.
  destruct (options df "order_month" false); simpl; [|done].
  destruct (options df "product_category_name_english" true); simpl; [|done].
  destruct (options df "customer_state" true); simpl; [|done].
  destruct (review_slider df) as [review|] eqn:Hr; simpl; [|done].
  destruct (options df "payment_type" false); simpl; [|done].
  assert (Hreview : ∀ e, e ∈ review → is_widget e = true).
  { intros e He. unfold review_slider, slider in Hr.
    destruct (has_col "review_score" df);
      [|injection Hr as <-; by apply elem_of_nil in He].
    destruct (review_bounds df) as [[lo hi]|]; [|done]. simpl in Hr.
    destruct (lo <? hi); [|done]. injection Hr as <-.
    by apply list_elem_of_singleton in He as ->. }
  intros [= <-] e He.
  repeat (apply elem_of_cons in He as [->|He]); try done.
  apply elem_of_app in He as [He|He]; [by apply Hreview|].
  apply list_elem_of_singleton in He as ->. done.
Qed.

(** Taking apart the membership of an event in a page. *)
Ltac in_page H :=
  repeat first [ apply elem_of_app in H as [H|H]
               | apply elem_of_cons in H as [H|H]
               | apply elem_of_nil in H ];
  try done; try congruence.

(** X14: when the filter keeps no row, the page reports 0 orders, shows the
    warning and six metrics equal to 0, offers the full dataset for
    download under the name of the first reading of the clock, and has no
    chart and no download of filtered data. *)
Theorem main_no_rows (fs : gmap string table) (u : session) (df filtered : table)
    (side : list event) :
  fs !! "ecommerce.csv" = Some df →
  sidebar df = Ok side →
  apply_filters df (pick u) = Ok filtered →
  len filtered = 0 →
  ∃ es,
    main fs u = Ok es
    ∧ Success 0 (len df) ∈ es
    ∧ Warning "No data available with current filters." ∈ es
    ∧ (∀ label v, Metric label v ∈ es → v = Int 0)
    ∧ (∀ c, PlotlyChart c ∉ es)
    ∧ (∀ t f, DownloadButton "Download Filtered Data" t f ∉ es)
    ∧ DownloadButton "Download Full Dataset" df
        ("ecommerce_data_full_" ++ now u 0%nat ++ ".csv") ∈ es.
Proof.
  intros Hfs Hside Hf Hlen.
  pose proof (sidebar_widgets df side Hside) as Hw.
  unfold main, load_ecommerce_data. rewrite Hfs, Hside. simpl.
  rewrite Hf. simpl. rewrite (calculate_kpis_no_rows filtered Hlen). simpl.
  rewrite Hlen. simpl. eexists. split; [reflexivity|].
  split; [set_solver|]. split; [destruct (show_raw u); set_solver|].
  split; [|split; [|split]].
  - intros label v H. destruct (show_raw u); in_page H;
      by apply Hw in H.
  - intros c H. destruct (show_raw u); in_page H; by apply Hw in H.
  - intros t f H. destruct (show_raw u); in_page H; by apply Hw in H.
  - set_solver.
Qed.

Lemma main_no_rows_witness :
  ({[ "ecommerce.csv" := three_orders ]} : gmap string table) !! "ecommerce.csv"
    = Some three_orders
  ∧ len (Table (columns three_orders) []) = 0
  ∧ ∃ es,
      main {[ "ecommerce.csv" := three_orders ]}
        (Session (Selections ["All"] ["All"] ["MG"] 3 5 "All") false
           (fun _ => "20240101_120000"))
      = Ok es
      ∧ Success 0 (len three_orders) ∈ es
      ∧ Warning "No data available with current filters." ∈ es
      ∧ (∀ label v, Metric label v ∈ es → v = Int 0)
      ∧ (∀ c, PlotlyChart c ∉ es)
      ∧ (∀ t f, DownloadButton "Download Filtered Data" t f ∉ es)
      ∧ DownloadButton "Download Full Dataset" three_orders
          ("ecommerce_data_full_" ++ "20240101_120000" ++ ".csv") ∈ es.
Proof.
  split; [reflexivity|]. split; [reflexivity|].
  eapply (main_no_rows {[ "ecommerce.csv" := three_orders ]}
            (Session (Selections ["All"] ["All"] ["MG"] 3 5 "All") false
               (fun _ => "20240101_120000"))
            three_orders (Table (columns three_orders) [])).
  - reflexivity.
  - vm_compute. reflexivity.
  - vm_compute. reflexivity.
  - reflexivity.
Defined.

(** X15: when the filter keeps rows and the chart builder returns on them,
    the page reports their count, offers the filtered table for download
    under the name of the first reading of the clock and the full dataset
    under that of the second, shows everything the chart builder returns,
    and has no warning. *)
Theorem main_with_rows (fs : gmap string table) (u : session) (df filtered : table)
    (side charts : list event) :
  fs !! "ecommerce.csv" = Some df →
  sidebar df = Ok side →
  apply_filters df (pick u) = Ok filtered →
  0 < len filtered →
  create_visualizations filtered = Ok charts →
  ∃ es,
    main fs u = Ok es
    ∧ (∀ e, e ∈ charts → e ∈ es)
    ∧ Success (len filtered) (len df) ∈ es
    ∧ (∀ text, Warning text ∉ es)
    ∧ DownloadButton "Download Filtered Data" filtered
        ("ecommerce_data_filtered_" ++ now u 0%nat ++ ".csv") ∈ es
    ∧ DownloadButton "Download Full Dataset" df
        ("ecommerce_data_full_" ++ now u 1%nat ++ ".csv") ∈ es
    ∧ (show_raw u = true → DataFrame filtered ∈ es).
Proof.
  intros Hfs Hside Hf Hlen Hcharts.
  pose proof (sidebar_widgets df side Hside) as Hw.
  destruct (create_visualizations_lists filtered charts Hcharts) as [Hev _].
  rewrite Forall_forall in Hev.
  destruct (calculate_kpis_returns filtered) as [k Hk].
  apply Z.ltb_lt in Hlen.
  unfold main, load_ecommerce_data. rewrite Hfs, Hside. simpl.
  rewrite Hf. simpl. rewrite Hk. simpl. rewrite Hlen, Hcharts. simpl.
  eexists. split; [reflexivity|].
  split; [intros e He; destruct (show_raw u); set_solver|].
  split; [set_solver|].
  split; [|split; [set_solver|split; [set_solver|]]].
  - intros text H. destruct (show_raw u); in_page H;
      solve [by apply Hw in H | by apply Hev in H].
  - intros ->. set_solver.
Qed.

Lemma main_with_rows_witness :
  ({[ "ecommerce.csv" := three_orders ]} : gmap string table) !! "ecommerce.csv"
    = Some three_orders
  ∧ 0 < len three_orders
  ∧ ∃ es,
      main {[ "ecommerce.csv" := three_orders ]}
        (Session everything true
           (fun n => if Nat.eqb n 0 then "20240101_120000" else "20240101_120001"))
      = Ok es
      ∧ Success (len three_orders) (len three_orders) ∈ es
      ∧ (∀ text, Warning text ∉ es)
      ∧ DownloadButton "Download Filtered Data" three_orders
          "ecommerce_data_filtered_20240101_120000.csv" ∈ es
      ∧ DownloadButton "Download Full Dataset" three_orders
          "ecommerce_data_full_20240101_120001.csv" ∈ es
      ∧ DataFrame three_orders ∈ es.
Proof.
  split; [reflexivity|]. split; [reflexivity|].
  edestruct (main_with_rows {[ "ecommerce.csv" := three_orders ]}
            (Session everything true
               (fun n => if Nat.eqb n 0 then "20240101_120000" else "20240101_120001"))
            three_orders three_orders)
    as (es & Hes & _ & Hsuccess & Hwarning & Hfiltered & Hfull & Hraw);
    [reflexivity | vm_compute; reflexivity | vm_compute; reflexivity | reflexivity
    | vm_compute; reflexivity |].
  exists es. repeat split; try done. by apply Hraw.
Defined.

(** ** The bars of the charts *)

(** When every part of a page returns events that satisfy [P], so does the
    page. *)
Lemma sequence_Forall (P : event → Prop) (parts : list (result (list event))) :
  Forall (fun part => ∀ es, part = Ok es → Forall P es) parts →
  ∀ es, sequence parts = Ok es → Forall P es.
Proof.
  induction 1 as [|part parts Hpart _ IH]; simpl.
  - by intros es [= <-].
  - destruct part as [es1|]; [|done]. simpl.
    destruct (sequence parts) as [es2|]; [|done]. simpl.
    intros es [= <-]. apply Forall_app. split; [by apply Hpart|by apply IH].
Qed.

Lemma not_top_ten (t : string) (P : Prop) :
  bool_decide (t ∈ top_ten_titles) = false → t ∈ top_ten_titles → P.
Proof. intros H Ht. by apply bool_decide_eq_false in H. Qed.

Local Opaque head sort_values value_counts.

Ltac bars_part :=
  let es := fresh "es" in
  let H := fresh "H" in
  intros es; unfold when, px_bar, groupby_agg, getitem_txt, getitem_num;
  repeat match goal with
         | |- context [has_col ?x ?df] => destruct (has_col x df)
         end;
  simpl;
  repeat match goal with
         | |- context [match ?s with [] => _ | _ :: _ => _ end] =>
             destruct s eqn:?
         end;
  intros H; try discriminate H; injection H as <-;
  repeat first [apply Forall_nil_2 | apply Forall_cons_2]; simpl; try exact I;
  try (apply not_top_ten; reflexivity).

(** X16: each chart titled 'Top 10 ...' that the chart builder returns has
    at least one bar and at most ten. *)
Theorem top_charts_at_most_ten (df : table) (es : list event) (ch : chart) :
  create_visualizations df = Ok es →
  PlotlyChart ch ∈ es →
  title ch ∈ top_ten_titles →
  ∃ s, data ch = Labelled s ∧ (0 < length s ≤ 10)%nat.
Proof.
  intros Hes Hch.
  assert (Hbars : Forall at_most_ten_bars es).
  { revert es Hes Hch. intros es Hes _. revert es Hes.
    apply sequence_Forall.
    repeat first [apply Forall_nil_2 | apply Forall_cons_2].
    - bars_part.
    - unfold monthly_sales. bars_part.
    - unfold top_states_by_sales. bars_part.
      intros _. eexists. split; [reflexivity|]. split; [simpl; lia|].
      match goal with E : head _ _ = _ |- _ => rewrite <- E end.
      rewrite length_head. lia.
    - bars_part.
    - unfold top_categories. bars_part.
      intros _. eexists. split; [reflexivity|]. split; [simpl; lia|].
      match goal with E : sort_values _ _ = _ |- _ => rewrite <- E end.
      rewrite length_sort_values, length_head. lia.
    - unfold price_histogram. bars_part.
    - unfold scatter. bars_part.
    - bars_part.
    - unfold delivery_box. bars_part.
    - unfold delivery_by_state. bars_part.
      intros _. eexists. split; [reflexivity|]. split; [simpl; lia|].
      match goal with E : sort_values _ _ = _ |- _ => rewrite <- E end.
      rewrite length_sort_values, length_head. lia.
    - unfold scatter. bars_part.
    - bars_part.
    - unfold payment_pie. bars_part.
    - unfold rating_by_payment. bars_part. }
  rewrite Forall_forall in Hbars. exact (Hbars _ Hch).
Qed.

Local Transparent head sort_values value_counts.

Lemma top_charts_at_most_ten_witness :
  ∃ es ch,
    create_visualizations eleven_states = Ok es
    ∧ PlotlyChart ch ∈ es
    ∧ title ch = "Top 10 States by Sales"
    ∧ ∃ s, data ch = Labelled s ∧ (0 < length s ≤ 10)%nat.
Proof.
  eexists _, (Chart BarH "Top 10 States by Sales" _ false).
  split; [vm_compute; reflexivity|].
  split; [do 3 constructor; constructor|].
  split; [reflexivity|].
  eapply (top_charts_at_most_ten eleven_states).
  - vm_compute. reflexivity.
  - do 3 constructor. constructor.
  - constructor.
Defined.

(** *** The order of the bars *)

Lemma present_nil {A} (s : series A) : present s = [] ↔ ∀ v, v ∈ s → v = None.
Proof.
  unfold present. induction s as [|[x|] s IH]; csimpl.
  - split; [|done]. intros _ v Hv. by apply elem_of_nil in Hv.
  - split; [done|]. intros H. by specialize (H (Some x) ltac:(constructor)).
  - rewrite IH. split.
    + intros H v Hv. apply elem_of_cons in Hv as [->|Hv]; [done|by apply H].
    + intros H v Hv. apply H. by constructor.
Qed.

Lemma distinct_nil {A} `{EqDecision A} (l : list A) : distinct l = [] ↔ l = [].
Proof.
  split; [|by intros ->].
  intros H. destruct l as [|x l]; [done|].
  assert (Hx : x ∈ distinct (x :: l)) by (apply elem_of_distinct; constructor).
  rewrite H in Hx. by apply elem_of_nil in Hx.
Qed.

Lemma group_keys_nil (k : series string) :
  group_keys k = [] ↔ ∀ v, v ∈ k → v = None.
Proof.
  rewrite <- present_nil. unfold group_keys. split.
  - intros H. apply distinct_nil.
    pose proof (merge_sort_Permutation (fun a b => Is_true (String.leb a b))
                  (distinct (present k))) as HP.
    rewrite H in HP. by apply Permutation_nil in HP.
  - intros ->. done.
Qed.

Lemma fmap_nil_iff {A B} (f : A → B) (l : list A) : f <$> l = [] ↔ l = [].
Proof. split; [apply fmap_nil_inv|by intros ->]. Qed.

Lemma px_bar_bars (k : chart_kind) (t : string) (s : labelled) :
  s ≠ [] → px_bar k t s = Ok (plot k t (Labelled s) false).
Proof. by destruct s. Qed.

Lemma length_nil_iff {A} (l : list A) : l = [] ↔ length l = 0%nat.
Proof. by destruct l. Qed.

(** X17: the chart of the states by average delivery time raises
    [ValueError] when no row has a state.  Otherwise it shows, in ascending
    order, the ten states with the lowest averages (all of them when there
    are fewer): no state left out has a lower average than a state shown, a
    state without any delivery time counting as highest. *)
Theorem delivery_by_state_lowest (df : table) :
  has_col "customer_state" df = true →
  has_col "delivery_days" df = true →
  ∃ averages,
    groupby_agg df "customer_state" "delivery_days" mean = Ok averages
    ∧ (averages = [] ↔ ∀ r, r ∈ rows df → txt r !! "customer_state" = None)
    ∧ (averages = [] → delivery_by_state df = Err ValueError)
    ∧ (averages ≠ [] →
       ∃ shown rest,
         delivery_by_state df =
           Ok (plot Bar "Top 10 States by Avg Delivery Time" (Labelled shown) false)
         ∧ averages ≡ₚ shown ++ rest
         ∧ length shown = (10 `min` length averages)%nat
         ∧ (∀ x y, x ∈ shown → y ∈ rest → by_value x y)
         ∧ Sorted by_value shown).
Proof.
  intros Hs Hd. unfold delivery_by_state, when, groupby_agg, getitem_txt, getitem_num.
  rewrite Hs, Hd. cbn [andb bind].
  set (k := (fun r => txt r !! "customer_state") <$> rows df).
  set (averages := _ <$> group_keys k). exists averages.
  split; [done|]. split; [|split].
  - subst averages. split.
    + intros H r Hr. apply fmap_nil_inv in H.
      apply (proj1 (group_keys_nil k) H). subst k.
      apply list_elem_of_fmap. by exists r.
    + intros H. apply fmap_nil_iff, group_keys_nil. intros v Hv. subst k.
      apply list_elem_of_fmap in Hv as (r & -> & Hr). by apply H.
  - by intros ->.
  - intros Hne.
    destruct (head_ascending 10 averages) as [Hperm Hle].
    exists (sort_values true (head 10 (sort_values true averages))),
      (drop 10 (sort_values true averages)).
    assert (Hlen : length (sort_values true (head 10 (sort_values true averages)))
                   = (10 `min` length averages)%nat)
      by by rewrite length_sort_values, length_head, length_sort_values.
    split; [|split; [|split; [done|split]]].
    + apply px_bar_bars. intros Hnil. rewrite Hnil in Hlen. simpl in Hlen.
      destruct averages; [done|]. simpl in Hlen. lia.
    + by rewrite sort_values_Permutation.
    + intros x y Hx Hy. rewrite sort_values_Permutation in Hx. by apply Hle.
    + apply sort_values_ascending.
Qed.

Lemma delivery_by_state_lowest_witness :
  has_col "customer_state" eleven_deliveries = true
  ∧ has_col "delivery_days" eleven_deliveries = true
  ∧ delivery_by_state eleven_deliveries =
    Ok (plot Bar "Top 10 States by Avg Delivery Time"
          (Labelled [("SP", Float 1); ("MA", Float 2); ("GO", Float 3);
                     ("ES", Float 4); ("DF", Float 5); ("CE", Float 6);
                     ("BA", Float 7); ("AP", Float 8); ("AM", Float 9);
                     ("AL", Float 10)]) false)
  ∧ ∃ averages,
      groupby_agg eleven_deliveries "customer_state" "delivery_days" mean = Ok averages
      ∧ (averages = [] ↔
         ∀ r, r ∈ rows eleven_deliveries → txt r !! "customer_state" = None)
      ∧ (averages = [] → delivery_by_state eleven_deliveries = Err ValueError)
      ∧ (averages ≠ [] →
         ∃ shown rest,
           delivery_by_state eleven_deliveries =
             Ok (plot Bar "Top 10 States by Avg Delivery Time" (Labelled shown) false)
           ∧ averages ≡ₚ shown ++ rest
           ∧ length shown = (10 `min` length averages)%nat
           ∧ (∀ x y, x ∈ shown → y ∈ rest → by_value x y)
           ∧ Sorted by_value shown).
Proof.
  split; [reflexivity|]. split; [reflexivity|].
  split; [vm_compute; reflexivity|].
  apply (delivery_by_state_lowest eleven_deliveries); reflexivity.
Defined.

Lemma value_counts_nil (s : series string) :
  value_counts s = [] ↔ ∀ v, v ∈ s → v = None.
Proof.
  rewrite <- present_nil. unfold value_counts. split.
  - intros H. apply distinct_nil.
    pose proof (sort_values_Permutation false
                  ((fun g => (g, count_label g s)) <$> distinct (present s))) as HP.
    rewrite H in HP. apply Permutation_nil in HP. by apply fmap_nil_inv in HP.
  - intros ->. done.
Qed.

Lemma value_counts_are_counts (s : series string) (x : string * number) :
  x ∈ value_counts s → ∃ z, x.2 = Int z.
Proof.
  unfold value_counts. rewrite sort_values_Permutation.
  intros Hx. apply list_elem_of_fmap in Hx as (g & -> & _). by eexists.
Qed.

(** Among numbers that are not NaN, the descending order is the ascending
    order turned round. *)
Lemma by_value_desc_flip (x y : string * number) (z : Z) :
  y.2 = Int z → by_value_desc x y → by_value y x.
Proof.
  unfold by_value_desc, by_value, number_geb, number_leb. intros ->. simpl.
  by destruct (Q_of x.2).
Qed.

(** X18: the chart of the product categories raises [ValueError] when no row
    has a category.  Otherwise it shows, in ascending order of their counts,
    the ten categories with the highest counts (all of them when there are
    fewer): no category left out has a higher count than a category
    shown. *)
Theorem top_categories_highest (df : table) :
  has_col "product_category_name_english" df = true →
  ∃ counts,
    counts = value_counts ((fun r => txt r !! "product_category_name_english") <$> rows df)
    ∧ (counts = [] ↔
       ∀ r, r ∈ rows df → txt r !! "product_category_name_english" = None)
    ∧ (counts = [] → top_categories df = Err ValueError)
    ∧ (counts ≠ [] →
       ∃ shown rest,
         top_categories df =
           Ok (plot BarH "Top 10 Product Categories by Count" (Labelled shown) false)
         ∧ counts ≡ₚ shown ++ rest
         ∧ length shown = (10 `min` length counts)%nat
         ∧ (∀ x y, x ∈ shown → y ∈ rest → by_value y x)
         ∧ Sorted by_value shown).
Proof.
  intros Hc. unfold top_categories, when, getitem_txt.
  rewrite Hc. cbn [bind].
  set (s := (fun r => txt r !! "product_category_name_english") <$> rows df).
  exists (value_counts s). split; [done|]. split; [|split].
  - rewrite value_counts_nil. subst s. split.
    + intros H r Hr. apply H. apply list_elem_of_fmap. by exists r.
    + intros H v Hv. apply list_elem_of_fmap in Hv as (r & -> & Hr). by apply H.
  - by intros ->.
  - intros Hne.
    exists (sort_values true (head 10 (value_counts s))), (drop 10 (value_counts s)).
    assert (Hlen : length (sort_values true (head 10 (value_counts s)))
                   = (10 `min` length (value_counts s))%nat)
      by by rewrite length_sort_values, length_head.
    split; [|split; [|split; [done|split]]].
    + apply px_bar_bars. intros Hnil. rewrite Hnil in Hlen. simpl in Hlen.
      destruct (value_counts s); [done|]. simpl in Hlen. lia.
    + rewrite sort_values_Permutation. unfold head. by rewrite take_drop.
    + intros x y Hx Hy. rewrite sort_values_Permutation in Hx.
      destruct (value_counts_are_counts s y) as [z Hz].
      { rewrite <- (take_drop 10 (value_counts s)). apply elem_of_app. by right. }
      apply (by_value_desc_flip x y z Hz).
      unfold value_counts in Hx, Hy.
      exact (proj2 (head_descending 10
                      ((fun g => (g, count_label g s)) <$> distinct (present s)))
               x y Hx Hy).
    + apply sort_values_ascending.
Qed.

Lemma top_categories_highest_witness :
  has_col "product_category_name_english" eleven_categories = true
  ∧ top_categories eleven_categories =
    Ok (plot BarH "Top 10 Product Categories by Count"
          (Labelled [("c02", Int 2); ("c03", Int 3); ("c04", Int 4); ("c05", Int 5);
                     ("c06", Int 6); ("c07", Int 7); ("c08", Int 8); ("c09", Int 9);
                     ("c10", Int 10); ("c11", Int 11)]) false)
  ∧ ∃ counts,
      counts = value_counts ((fun r => txt r !! "product_category_name_english")
                               <$> rows eleven_categories)
      ∧ (counts = [] ↔
         ∀ r, r ∈ rows eleven_categories →
              txt r !! "product_category_name_english" = None)
      ∧ (counts = [] → top_categories eleven_categories = Err ValueError)
      ∧ (counts ≠ [] →
         ∃ shown rest,
           top_categories eleven_categories =
             Ok (plot BarH "Top 10 Product Categories by Count" (Labelled shown) false)
           ∧ counts ≡ₚ shown ++ rest
           ∧ length shown = (10 `min` length counts)%nat
           ∧ (∀ x y, x ∈ shown → y ∈ rest → by_value y x)
           ∧ Sorted by_value shown).
Proof.
  split; [reflexivity|]. split; [vm_compute; reflexivity|].
  apply (top_categories_highest eleven_categories). reflexivity.
Defined.

(** *** The slices of the pie *)

Lemma Qsum_Permutation (l l' : list Q) : l ≡ₚ l' → (Qsum l == Qsum l')%Q.
Proof.
  induction 1 as [|x l l' _ IH|x y l|l l' l'' _ IH1 _ IH2]; simpl.
  - reflexivity.
  - by rewrite IH.
  - ring.
  - by rewrite IH1.
Qed.

Lemma sum_list_with_ext {A} (f g : A → nat) (l : list A) :
  (∀ x, x ∈ l → f x = g x) → sum_list_with f l = sum_list_with g l.
Proof.
  induction l as [|x l IH]; intros H; simpl; [done|].
  rewrite (H x) by constructor. f_equal. apply IH.
  intros y Hy. apply H. by constructor.
Qed.

Lemma sum_indicator (K : list string) (g0 : string) (a : string → nat) :
  NoDup K → g0 ∈ K →
  sum_list_with (fun g => if bool_decide (Some g0 = Some g) then S (a g) else a g) K
  = S (sum_list_with a K).
Proof.
  induction 1 as [|g K Hg HK IH]; intros Hin; [by apply elem_of_nil in Hin|].
  simpl. apply elem_of_cons in Hin as [->|Hin].
  - rewrite bool_decide_eq_true_2 by done. simpl. f_equal. f_equal.
    apply sum_list_with_ext. intros g' Hg'.
    rewrite bool_decide_eq_false_2; [done|]. intros [= ->]. done.
  - rewrite bool_decide_eq_false_2 by (intros [= ->]; done).
    rewrite IH by done. lia.
Qed.

Lemma sum_count_cells (K : list string) (s : series string) :
  NoDup K → (∀ g, Some g ∈ s → g ∈ K) →
  sum_list_with (fun g => count_cells g s) K = length (present s).
Proof.
  intros HK. induction s as [|[g0|] s IH]; intros Hs.
  - unfold count_cells. simpl. clear HK Hs. by induction K as [|g K IHK].
  - transitivity (sum_list_with
      (fun g => if bool_decide (Some g0 = Some g) then S (count_cells g s)
                else count_cells g s) K).
    { apply sum_list_with_ext. intros g _. unfold count_cells. simpl.
      by destruct (bool_decide (Some g0 = Some g)). }
    rewrite sum_indicator; [|done|apply Hs; constructor].
    unfold present in *. csimpl. f_equal. apply IH.
    intros g Hg. apply Hs. by constructor.
  - transitivity (sum_list_with (fun g => count_cells g s) K).
    { apply sum_list_with_ext. intros g _. unfold count_cells. simpl.
      first [done | by rewrite bool_decide_eq_false_2]. }
    unfold present in *. csimpl. apply IH.
    intros g Hg. apply Hs. by constructor.
Qed.

Lemma Qsum_counts (K : list string) (s : series string) :
  (Qsum (omap (fun p : string * number => Q_of p.2)
           ((fun g => (g, count_label g s)) <$> K))
   == inject_Z (Z.of_nat (sum_list_with (fun g => count_cells g s) K)))%Q.
Proof.
  induction K as [|g K IH]; csimpl; [reflexivity|].
  rewrite IH, Nat2Z.inj_add, inject_Z_plus. reflexivity.
Qed.

(** X19: the pie of the payment methods has one slice for each payment type
    that occurs, and the counts of its slices add up to the number of rows
    that have a payment type. *)
Theorem payment_pie_counts (df : table) :
  has_col "payment_type" df = true →
  ∃ counts,
    payment_pie df =
      Ok (plot Pie "Payment Method Distribution" (Labelled counts) false)
    ∧ NoDup counts.*1
    ∧ (∀ l, l ∈ counts.*1 ↔ ∃ r, r ∈ rows df ∧ txt r !! "payment_type" = Some l)
    ∧ (labelled_total counts ==
       inject_Z (Z.of_nat
         (length (present ((fun r => txt r !! "payment_type") <$> rows df)))))%Q.
Proof.
  intros Hc. unfold payment_pie, when, getitem_txt. rewrite Hc. cbn [bind].
  set (s := _ <$> rows df). eexists. split; [reflexivity|].
  unfold value_counts.
  set (cs := _ <$> distinct (present s)).
  assert (Hlabels : cs.*1 = distinct (present s)).
  { subst cs. generalize (distinct (present s)). intros K.
    induction K as [|g K IH]; csimpl; [done|by rewrite IH]. }
  assert (Hperm : sort_values false cs ≡ₚ cs) by apply sort_values_Permutation.
  split; [by rewrite Hperm, Hlabels; apply NoDup_distinct|].
  split.
  - intros l. rewrite Hperm, Hlabels, elem_of_distinct, elem_of_present.
    subst s. rewrite list_elem_of_fmap. split.
    + intros (r & Hr & Hin). by exists r.
    + intros (r & Hin & Hr). by exists r.
  - unfold labelled_total. rewrite (Qsum_Permutation _ _ (omap_Permutation _ _ _ Hperm)).
    subst cs. rewrite Qsum_counts, sum_count_cells; [reflexivity|apply NoDup_distinct|].
    intros g Hg. by apply elem_of_distinct, elem_of_present.
Qed.

Lemma payment_pie_counts_witness :
  has_col "payment_type" three_orders = true
  ∧ ∃ counts,
      payment_pie three_orders =
        Ok (plot Pie "Payment Method Distribution" (Labelled counts) false)
      ∧ NoDup counts.*1
      ∧ (∀ l, l ∈ counts.*1 ↔
              ∃ r, r ∈ rows three_orders ∧ txt r !! "payment_type" = Some l)
      ∧ (labelled_total counts ==
         inject_Z (Z.of_nat
           (length (present ((fun r => txt r !! "payment_type")
                               <$> rows three_orders)))))%Q.
Proof.
  split; [reflexivity|].
  apply (payment_pie_counts three_orders). reflexivity.
Defined.

(** ** More on the selections *)

(** X20: a multi-select whose selection holds 'All' does not filter,
    whatever else is selected with it. *)
Theorem all_with_others_unrestricted (m : multiselect) (df : table) (sel : selections) :
  all_in (selection_of m sel) = true →
  apply_filters df sel = apply_filters df (with_selection m ["All"] sel).
Proof.
  intros Hall. rewrite !apply_filters_keeps. do 2 f_equal.
  apply filter_ext_in. intros r _.
  assert (Hp : ∀ c, passes_isin (columns df) c (selection_of m sel) r = true).
  { intros c. unfold passes_isin. by rewrite Hall, andb_false_r. }
  destruct m; unfold keeps; simpl in *; by rewrite Hp, passes_isin_all.
Qed.

Lemma all_with_others_unrestricted_witness :
  all_in (selection_of States (Selections ["All"] ["All"] ["All"; "RJ"] 3 5 "All")) = true
  ∧ apply_filters three_orders (Selections ["All"] ["All"] ["All"; "RJ"] 3 5 "All")
    = apply_filters three_orders
        (with_selection States ["All"] (Selections ["All"] ["All"] ["All"; "RJ"] 3 5 "All")).
Proof.
  split; [reflexivity|].
  apply (all_with_others_unrestricted States three_orders
           (Selections ["All"] ["All"] ["All"; "RJ"] 3 5 "All")).
  reflexivity.
Defined.

(** ** Columns without values *)

Lemma present_all_missing {A} (s : series A) :
  (∀ v, v ∈ s → v = None) → present s = [].
Proof.
  unfold present. induction s as [|v s IH]; intros H; [done|].
  rewrite (H v) by constructor. csimpl. apply IH.
  intros w Hw. apply H. by constructor.
Qed.

(** X21: on a table with rows in which a numeric column is present but
    empty in every row, the average over that column is NaN and the sum over
    it is 0.0: the averages of review_score, freight_value and price, and
    the total of total_order_value. *)
Theorem kpis_of_empty_columns (df : table) :
  len df ≠ 0 →
  ∃ k,
    calculate_kpis df = Ok k
    ∧ (has_col "total_order_value" df = true →
       (∀ r, r ∈ rows df → num r !! "total_order_value" = None) →
       total_revenue k = Float 0)
    ∧ (has_col "review_score" df = true →
       (∀ r, r ∈ rows df → num r !! "review_score" = None) →
       avg_rating k = NaN)
    ∧ (has_col "freight_value" df = true →
       (∀ r, r ∈ rows df → num r !! "freight_value" = None) →
       avg_freight_cost k = NaN)
    ∧ (has_col "price" df = true →
       (∀ r, r ∈ rows df → num r !! "price" = None) →
       avg_price k = NaN).
Proof.
  intros Hlen. eexists. split; [by apply calculate_kpis_rows|].
  assert (Hnone : ∀ c, (∀ r, r ∈ rows df → num r !! c = None) →
            present ((fun r => num r !! c) <$> rows df) = []).
  { intros c H. apply present_all_missing. intros v Hv.
    apply list_elem_of_fmap in Hv as (r & -> & Hr). by apply H. }
  cbn [total_revenue avg_rating avg_freight_cost avg_price].
  repeat split; intros -> H; unfold sum, mean; by rewrite (Hnone _ H).
Qed.

Lemma kpis_of_empty_columns_witness :
  len (Table ["price"] [Row ∅ ∅]) ≠ 0
  ∧ ∃ k,
      calculate_kpis (Table ["price"] [Row ∅ ∅]) = Ok k
      ∧ avg_price k = NaN.
Proof.
  assert (H : len (Table ["price"] [Row ∅ ∅]) ≠ 0) by (vm_compute; discriminate).
  split; [exact H|].
  destruct (kpis_of_empty_columns (Table ["price"] [Row ∅ ∅]) H)
    as (k & Hk & _ & _ & _ & Hprice).
  exists k. split; [exact Hk|]. apply Hprice; [reflexivity|].
  intros r Hr. apply list_elem_of_singleton in Hr as ->. reflexivity.
Defined.

(** ** The bounds of the review slider *)

Lemma trunc_nonneg (q : Q) :
  0 ≤ Qnum q → Z.quot (Qnum q) (Z.pos (Qden q)) = Qfloor q.
Proof.
  destruct q as [n d]. simpl. intros Hn. apply Z.quot_div_nonneg; lia.
Qed.

Lemma trunc_nonpos (q : Q) :
  Qnum q ≤ 0 → Z.quot (Qnum q) (Z.pos (Qden q)) = Qceiling q.
Proof.
  destruct q as [n d]. unfold Qceiling, Qfloor, Qopp. simpl. intros Hn.
  rewrite <- (Z.opp_involutive n) at 1.
  rewrite Z.quot_opp_l by lia. f_equal. apply Z.quot_div_nonneg; lia.
Qed.

(** [int] is monotone. *)
Lemma trunc_mono (a b : Q) :
  (a <= b)%Q →
  Z.quot (Qnum a) (Z.pos (Qden a)) ≤ Z.quot (Qnum b) (Z.pos (Qden b)).
Proof.
  intros Hab.
  destruct (Z_le_gt_dec 0 (Qnum a)) as [Ha|Ha].
  - assert (Hb : 0 ≤ Qnum b) by (unfold Qle in Hab; nia).
    rewrite !trunc_nonneg by done. by apply Qfloor_resp_le.
  - destruct (Z_le_gt_dec (Qnum b) 0) as [Hb|Hb].
    + rewrite !trunc_nonpos by lia. by apply Qceiling_resp_le.
    + rewrite trunc_nonpos, trunc_nonneg by lia.
      transitivity 0.
      * change 0 with (Qceiling 0). apply Qceiling_resp_le.
        unfold Qle. simpl. lia.
      * change 0 with (Qfloor 0). apply Qfloor_resp_le.
        unfold Qle. simpl. lia.
Qed.

(** X22: whenever the bounds of the review slider can be computed, the
    lower bound is at most the upper bound; without a review_score column
    they are 1 and 5. *)
Theorem review_bounds_ordered (df : table) (lo hi : Z) :
  review_bounds df = Ok (lo, hi) →
  lo ≤ hi ∧ (has_col "review_score" df = false → lo = 1 ∧ hi = 5).
Proof.
  unfold review_bounds, getitem_num.
  destruct (has_col "review_score" df); simpl.
  - set (s := _ <$> rows df).
    destruct (series_min s) as [m|] eqn:Hmin; [|done].
    destruct (series_max s) as [M|] eqn:Hmax; [|done].
    simpl. intros [= <- <-]. split; [|done].
    apply fold1_Qmin in Hmin as [Hin _].
    apply fold1_Qmax in Hmax as [_ Hle].
    apply trunc_mono. by apply Hle.
  - intros [= <- <-]. by split.
Qed.

Lemma review_bounds_ordered_witness :
  review_bounds three_orders = Ok (3, 5)
  ∧ 3 ≤ 5 ∧ (has_col "review_score" three_orders = false → 3 = 1 ∧ 5 = 5).
Proof.
  assert (H : review_bounds three_orders = Ok (3, 5)) by (vm_compute; reflexivity).
  split; [exact H|]. exact (review_bounds_ordered three_orders 3 5 H).
Defined.


(** ** When the script returns *)

Lemma options_returns (df : table) (c : string) (reverse : bool) :
  (has_col c df = true → ∀ r, r ∈ rows df → is_Some (txt r !! c)) →
  ∃ l, options df c reverse = Ok l.
Proof.
  intros H. destruct (has_col c df) eqn:Hc.
  - destruct (options_labels df c reverse Hc (H eq_refl)) as (l & -> & _).
    by eexists.
  - unfold options. rewrite Hc. by eexists.
Qed.

Lemma sequence_returns (parts : list (result (list event))) :
  Forall (fun part => ∃ es, part = Ok es) parts → ∃ es, sequence parts = Ok es.
Proof.
  induction 1 as [|part parts [es ->] _ [es' IH]]; simpl; [by eexists|].
  rewrite IH. by eexists.
Qed.

Lemma sort_values_bars (ascending : bool) (s : labelled) :
  s ≠ [] → sort_values ascending s ≠ [].
Proof.
  intros H E. apply H. destruct s as [|x s]; [done|].
  apply (f_equal length) in E. rewrite length_sort_values in E. discriminate E.
Qed.

Lemma head_bars (s : labelled) : s ≠ [] → head 10 s ≠ [].
Proof.
  intros H E. apply H. destruct s as [|x s]; [done|].
  apply (f_equal length) in E. rewrite length_head in E. simpl in E. lia.
Qed.

Lemma labels_present (df : table) (c : string) :
  rows df ≠ [] →
  (∀ r, r ∈ rows df → is_Some (txt r !! c)) →
  ¬ (∀ v, v ∈ (fun r => txt r !! c) <$> rows df → v = None).
Proof.
  intros Hrows Hlabels Hnone.
  destruct (rows df) as [|r l] eqn:E; [done|].
  destruct (Hlabels r ltac:(constructor)) as [x Hx].
  specialize (Hnone (Some x)). rewrite <- Hx in Hnone.
  assert (H : txt r !! c = None) by (apply Hnone; csimpl; constructor).
  congruence.
Qed.

Lemma groupby_agg_bars (df : table) (key val : string) (agg : series Q → number) :
  has_col key df = true → has_col val df = true →
  rows df ≠ [] →
  (∀ r, r ∈ rows df → is_Some (txt r !! key)) →
  ∃ s, groupby_agg df key val agg = Ok s ∧ s ≠ [].
Proof.
  intros Hkey Hval Hrows Hlabels. unfold groupby_agg, getitem_txt, getitem_num.
  rewrite Hkey, Hval. simpl. eexists. split; [done|].
  intros E. apply fmap_nil_inv in E.
  apply (labels_present df key Hrows Hlabels). by apply group_keys_nil.
Qed.

Local Opaque head sort_values value_counts.

Lemma create_visualizations_returns (df : table) :
  rows df ≠ [] →
  (∀ c, c ∈ label_columns → has_col c df = true →
        ∀ r, r ∈ rows df → is_Some (txt r !! c)) →
  ∃ es, create_visualizations df = Ok es.
Proof.
  intros Hrows Hlabels. apply sequence_returns.
  repeat first [apply Forall_nil_2 | apply Forall_cons_2].
  - by eexists.
  - unfold monthly_sales, when, groupby_agg, getitem_txt, getitem_num.
    destruct (has_col "order_month" df), (has_col "total_order_value" df);
      simpl; by eexists.
  - unfold top_states_by_sales, when.
    destruct (has_col "customer_state" df) eqn:H1,
      (has_col "total_order_value" df) eqn:H2; simpl; try by eexists.
    destruct (groupby_agg_bars df "customer_state" "total_order_value" sum H1 H2 Hrows)
      as (s & -> & Hs); [apply Hlabels; [unfold label_columns; set_solver|done]|].
    simpl. rewrite px_bar_bars; [by eexists|].
    by apply head_bars, sort_values_bars.
  - by eexists.
  - unfold top_categories, when, getitem_txt.
    destruct (has_col "product_category_name_english" df) eqn:H1; simpl;
      [|by eexists].
    rewrite px_bar_bars; [by eexists|].
    apply sort_values_bars, head_bars. intros E.
    apply (labels_present df "product_category_name_english" Hrows);
      [|by apply value_counts_nil].
    apply Hlabels; [unfold label_columns; set_solver|done].
  - unfold price_histogram, when, getitem_num.
    destruct (has_col "price" df); simpl; by eexists.
  - unfold scatter, when, getitem_num.
    destruct (has_col "price" df), (has_col "freight_value" df); simpl; by eexists.
  - by eexists.
  - unfold delivery_box, when, getitem_num.
    destruct (has_col "review_score" df), (has_col "delivery_days" df);
      simpl; by eexists.
  - unfold delivery_by_state, when.
    destruct (has_col "customer_state" df) eqn:H1,
      (has_col "delivery_days" df) eqn:H2; simpl; try by eexists.
    destruct (groupby_agg_bars df "customer_state" "delivery_days" mean H1 H2 Hrows)
      as (s & -> & Hs); [apply Hlabels; [unfold label_columns; set_solver|done]|].
    simpl. rewrite px_bar_bars; [by eexists|].
    by apply sort_values_bars, head_bars, sort_values_bars.
  - unfold scatter, when, getitem_num.
    destruct (has_col "estimated_days" df), (has_col "delivery_delay" df);
      simpl; by eexists.
  - by eexists.
  - unfold payment_pie, when, getitem_txt.
    destruct (has_col "payment_type" df); simpl; by eexists.
  - unfold rating_by_payment, when.
    destruct (has_col "payment_type" df) eqn:H1,
      (has_col "review_score" df) eqn:H2; simpl; try by eexists.
    destruct (groupby_agg_bars df "payment_type" "review_score" mean H1 H2 Hrows)
      as (s & -> & Hs); [apply Hlabels; [unfold label_columns; set_solver|done]|].
    simpl. rewrite px_bar_bars; [by eexists|].
    by apply sort_values_bars.
Qed.

Local Transparent head sort_values value_counts.

Lemma sidebar_returns (df : table) :
  (∀ c, c ∈ label_columns → has_col c df = true →
        ∀ r, r ∈ rows df → is_Some (txt r !! c)) →
  (has_col "review_score" df = true →
   ∃ lo hi, review_bounds df = Ok (lo, hi) ∧ lo < hi) →
  ∃ side, sidebar df = Ok side.
Proof.
  intros Hlabels Hreview. unfold sidebar.
  destruct (options_returns df "order_month" false) as [? ->];
    [apply Hlabels; unfold label_columns; set_solver|].
  destruct (options_returns df "product_category_name_english" true) as [? ->];
    [apply Hlabels; unfold label_columns; set_solver|].
  destruct (options_returns df "customer_state" true) as [? ->];
    [apply Hlabels; unfold label_columns; set_solver|].
  destruct (options_returns df "payment_type" false) as [? Hpay];
    [apply Hlabels; unfold label_columns; set_solver|].
  simpl. unfold review_slider, slider.
  destruct (has_col "review_score" df) eqn:Hc.
  - destruct (Hreview eq_refl) as (lo & hi & -> & Hlt). simpl.
    apply Z.ltb_lt in Hlt. rewrite Hlt. simpl. rewrite Hpay. by eexists.
  - simpl. rewrite Hpay. by eexists.
Qed.

(** X23: the script returns a page whenever the file is there, no row lacks
    a label in a label column the table has, and, if the table has a
    review_score column, the bounds of the review slider are integers with
    the lower one below the upper one. *)
Theorem main_returns (fs : gmap string table) (u : session) (df : table) :
  fs !! "ecommerce.csv" = Some df →
  (∀ c, c ∈ label_columns → has_col c df = true →
        ∀ r, r ∈ rows df → is_Some (txt r !! c)) →
  (has_col "review_score" df = true →
   ∃ lo hi, review_bounds df = Ok (lo, hi) ∧ lo < hi) →
  ∃ es, main fs u = Ok es.
Proof.
  intros Hfs Hlabels Hreview.
  destruct (sidebar_returns df Hlabels Hreview) as [side Hside].
  destruct (main fs u) as [es|e] eqn:Hmain; [by exists es|].
  apply main_raises_inv in Hmain
    as (df' & Hfs' & [Hs|(side' & filtered & _ & Hf & Hlen & Hc)]);
    assert (df' = df) as -> by congruence; [congruence|].
  rewrite apply_filters_keeps in Hf. injection Hf as <-.
  destruct (create_visualizations_returns
              {| columns := columns df;
                 rows := List.filter (keeps (columns df) (pick u)) (rows df) |})
    as [es Hes]; [| |congruence].
  - unfold len in Hlen. simpl in *. intros E. rewrite E in Hlen. simpl in Hlen. lia.
  - intros c Hc' Hcol r Hr. simpl in Hr.
    apply list_elem_of_In, filter_In in Hr as [Hr _].
    apply (Hlabels c Hc' Hcol). by apply list_elem_of_In.
Qed.

Lemma three_orders_labels (c : string) (r : row) :
  c ∈ label_columns → has_col c three_orders = true →
  r ∈ rows three_orders → is_Some (txt r !! c).
Proof.
  intros Hc Hcol Hr. unfold label_columns in Hc. unfold three_orders in Hr.
  simpl in Hr.
  repeat (apply elem_of_cons in Hc as [->|Hc]); try discriminate Hcol;
    [..|by apply elem_of_nil in Hc];
    repeat (apply elem_of_cons in Hr as [->|Hr]); try (by eexists);
    by apply elem_of_nil in Hr.
Qed.

Lemma main_returns_witness :
  ({[ "ecommerce.csv" := three_orders ]} : gmap string table) !! "ecommerce.csv"
    = Some three_orders
  ∧ review_bounds three_orders = Ok (3, 5)
  ∧ ∃ es, main {[ "ecommerce.csv" := three_orders ]}
            (Session everything false (fun _ => "20240101_120000")) = Ok es.
Proof.
  split; [reflexivity|]. split; [reflexivity|].
  apply (main_returns _ _ three_orders).
  - reflexivity.
  - intros c Hc Hcol r Hr. by apply three_orders_labels.
  - intros _. exists 3, 5. split; [reflexivity|lia].
Defined.
